(** * Document-analysis backend (backend/server.py): model and properties

    The development follows the layout of [server.py]:

    - Python values as produced by [json.loads], with Python truthiness;
    - [generate_compliance_notes], the pure note generator;
    - the request pipeline ([extract_text_from_pdf],
      [extract_text_from_image], [analyze_document_with_openai],
      [analyze_document]) in a small state-and-exception monad that
      records every call made to an outside library or service;
    - a reference decoder for [json.loads] and a fixture of the outside
      services, used to run the pipeline on concrete requests.

    Conventions.  A Python [str] is the list of its code points, [bytes]
    is a list of [byte], a Python [int] is a [Z].  What the program gets
    from PyPDF2, PIL, pytesseract, the chat client, [os.environ], [uuid],
    [datetime], pydantic and [json] is gathered in the class [Services];
    the functions of [server.py] are defined over an arbitrary instance.

    Left out of the model: the writes to the logger, which no result
    depends on; a failure of [file.read()] or of the construction of the
    chat client, which the handlers would turn into a 500 error like any
    other exception; and the interpreter's recursion limit. *)

From stdpp Require Import base tactics option list strings gmap.
From Stdlib Require Import ZArith NArith Ascii.
From Stdlib Require String.
From Stdlib.Strings Require Import Byte.

(** ** Strings *)

Definition str : Type := list N.
Definition bytes : Type := list byte.

(** An ASCII literal of the source, one code point per character. *)
Definition lit (s : string) : str :=
  N_of_ascii <$> String.list_ascii_of_string s.

Definition newline : N := 10%N.

(** [s[:n]] *)
Definition slice_to (n : nat) (s : str) : str := take n s.

(** The characters [str.strip()] removes: those for which
    [str.isspace()] holds. *)
Definition is_space (c : N) : bool :=
  ((9 <=? c) && (c <=? 13) || (28 <=? c) && (c <=? 32)
   || (c =? 0x85) || (c =? 0xA0) || (c =? 0x1680)
   || (0x2000 <=? c) && (c <=? 0x200A)
   || (c =? 0x2028) || (c =? 0x2029) || (c =? 0x202F)
   || (c =? 0x205F) || (c =? 0x3000))%N.

Fixpoint lstrip (s : str) : str :=
  match s with
  | [] => []
  | c :: rest => if is_space c then lstrip rest else s
  end.

Definition rstrip (s : str) : str := reverse (lstrip (reverse s)).

Definition strip (s : str) : str := lstrip (rstrip s).

(** [bool(s)] for a string. *)
Definition nonempty (s : str) : bool :=
  match s with [] => false | _ => true end.

(** ** Python values *)

(** A float is kept as the decimal literal it was read from
    ([FDec m e] stands for [m * 10^e]) or as one of the three constants
    the JSON decoder accepts. *)
Inductive pyfloat : Type :=
| FDec (m e : Z)
| FNaN
| FInf (negative : bool).

#[warnings="-register-all"] Inductive pyvalue : Type :=
| PNone
| PBool (b : bool)
| PInt (n : Z)
| PFloat (f : pyfloat)
| PStr (s : str)
| PList (l : list pyvalue)
| PDict (d : gmap str pyvalue).

(** [float(lit) != 0.0]: the literal is read with correct rounding to
    binary64 (ties to even), so a non-zero decimal becomes [0.0] exactly
    when its magnitude is at most [2^-1075]. *)
Definition pyfloat_nonzero (f : pyfloat) : bool :=
  match f with
  | FDec m e =>
      if (m =? 0)%Z then false
      else if (0 <=? e)%Z then true
      else (10 ^ (- e) <? Z.abs m * 2 ^ 1075)%Z
  | FNaN => true
  | FInf _ => true
  end.

(** [bool(v)] *)
Definition truthy (v : pyvalue) : bool :=
  match v with
  | PNone => false
  | PBool b => b
  | PInt n => negb (n =? 0)%Z
  | PFloat f => pyfloat_nonzero f
  | PStr s => nonempty s
  | PList l => match l with [] => false | _ => true end
  | PDict d => negb (Nat.eqb (size d) 0)
  end.

(** [d.get(key)]: the value, or [None] when the key is absent. *)
Definition dict_get (d : gmap str pyvalue) (key : str) : pyvalue :=
  default PNone (d !! key).

(** ** Compliance notes *)

Module Note.

Definition warning_sign : str := [0x26A0; 0xFE0F]%N.
Definition check_mark : str := [0x2713]%N.
Definition information : str := [0x2139; 0xFE0F]%N.
Definition clipboard : str := [0x1F4CB]%N.

Definition effective_date_missing : str :=
  warning_sign ++ lit " Effective date not found - verify policy activation date".
Definition policy_amount_missing : str :=
  warning_sign ++ lit " Policy amount not identified - confirm coverage limits".
Definition legal_description_missing : str :=
  warning_sign
  ++ lit " Legal description missing - property boundaries may need verification".
Definition exceptions_review : str :=
  check_mark ++ lit " Policy exceptions identified - review for potential issues".
Definition standard_coverage : str :=
  information ++ lit " No exceptions listed - standard coverage applies".
Definition underwriter_confirmed : str :=
  check_mark ++ lit " Underwriter identified - policy issuer confirmed".
Definition reviewed : str :=
  clipboard ++ lit " Document processed - review all fields for accuracy".

End Note.

Module Field.

Definition effective_date : str := lit "effective_date".
Definition insured_party : str := lit "insured_party".
Definition underwriter : str := lit "underwriter".
Definition legal_description : str := lit "legal_description".
Definition exceptions : str := lit "exceptions".
Definition policy_amount : str := lit "policy_amount".

(** The six field names, in the order of [DocumentAnalysisResult]. *)
Definition all : list str :=
  [effective_date; insured_party; underwriter; legal_description;
   exceptions; policy_amount].

End Field.

(** [notes.append(x)] on the list threaded through the function body. *)
Definition append (notes : list str) (x : str) : list str :=
  notes ++ [x].

Definition generate_compliance_notes
    (analysis_result : gmap str pyvalue) : list str :=
  let notes := [] in
  let notes :=
    if negb (truthy (dict_get analysis_result Field.effective_date))
    then append notes Note.effective_date_missing else notes in
  let notes :=
    if negb (truthy (dict_get analysis_result Field.policy_amount))
    then append notes Note.policy_amount_missing else notes in
  let notes :=
    if negb (truthy (dict_get analysis_result Field.legal_description))
    then append notes Note.legal_description_missing else notes in
  let notes :=
    if truthy (dict_get analysis_result Field.exceptions)
    then append notes Note.exceptions_review
    else append notes Note.standard_coverage in
  let notes :=
    if truthy (dict_get analysis_result Field.underwriter)
    then append notes Note.underwriter_confirmed else notes in
  let notes := append notes Note.reviewed in
  notes.

(** *** The rule table of the specification

    Six rules, each looking at the field map alone and contributing at
    most one note; the table is read from top to bottom and every rule
    is evaluated.  "Missing" and "present" are the generator's own
    tests, [not m.get(k)] and [m.get(k)]. *)
Definition missing (m : gmap str pyvalue) (k : str) : bool :=
  negb (truthy (dict_get m k)).
Definition present (m : gmap str pyvalue) (k : str) : bool :=
  truthy (dict_get m k).

Definition rule : Type := gmap str pyvalue -> option str.

Definition warn_if_missing (k note : str) : rule :=
  fun m => if missing m k then Some note else None.
Definition confirm_if_present (k note : str) : rule :=
  fun m => if present m k then Some note else None.
Definition either_or (k yes no : str) : rule :=
  fun m => Some (if present m k then yes else no).
Definition always (note : str) : rule :=
  fun _ => Some note.

Definition compliance_rules : list rule :=
  [ warn_if_missing Field.effective_date Note.effective_date_missing;
    warn_if_missing Field.policy_amount Note.policy_amount_missing;
    warn_if_missing Field.legal_description Note.legal_description_missing;
    either_or Field.exceptions Note.exceptions_review Note.standard_coverage;
    confirm_if_present Field.underwriter Note.underwriter_confirmed;
    always Note.reviewed ].

Fixpoint run_rules (rules : list rule) (m : gmap str pyvalue)
  : list str :=
  match rules with
  | [] => []
  | r :: rest =>
      match r m with
      | Some note => note :: run_rules rest m
      | None => run_rules rest m
      end
  end.

(** ** Exceptions, calls and the request monad *)

Record HTTPException : Type :=
  { status_code : Z; detail : str }.

(** The exception classes the handlers of [server.py] tell apart; the
    argument of the last two is [str(e)]. *)
Inductive exn : Type :=
| EHTTP (e : HTTPException)
| EJSONDecode (msg : str)
| EOther (msg : str).

(** [LlmChat(api_key=..., session_id=..., system_message=...)]; the model
    is chosen afterwards by [with_model(provider, model)]. *)
Record LlmChat : Type :=
  { api_key : str;
    session_id : str;
    system_message : str;
    model : option (str * str) }.

Definition new_LlmChat (api_key session_id system_message : str) : LlmChat :=
  {| api_key := api_key;
     session_id := session_id;
     system_message := system_message;
     model := None |}.

Definition with_model (chat : LlmChat) (provider name : str) : LlmChat :=
  {| api_key := chat.(api_key);
     session_id := chat.(session_id);
     system_message := chat.(system_message);
     model := Some (provider, name) |}.

Record UserMessage : Type := { text : str }.

(** The calls that leave the module: reading the upload, PyPDF2, PIL,
    pytesseract and the chat service. *)
Inductive call : Type :=
| CallRead
| CallPdfReader (pdf_bytes : bytes)
| CallExtractText
| CallImageOpen (image_bytes : bytes)
| CallImageConvert (mode : str)
| CallImageToString
| CallSendMessage (chat : LlmChat) (user_message : UserMessage).

(** What a request has done so far: the calls it made, oldest first, and
    how many values it drew from [uuid.uuid4()] and [datetime.utcnow()]. *)
Record world : Type :=
  { calls : list call; drawn : nat }.

Definition M (A : Type) : Type := world -> world * (exn + A).

#[global] Instance M_ret : MRet M := fun A x w => (w, inr x).

#[global] Instance M_bind : MBind M := fun A B f m w =>
  match m w with
  | (w', inl e) => (w', inl e)
  | (w', inr x) => f x w'
  end.

Definition raise {A : Type} (e : exn) : M A := fun w => (w, inl e).

(** A library result that is already known: a value or an exception. *)
Definition lift {A : Type} (r : exn + A) : M A := fun w => (w, r).

(** The world once the call [c] has been made. *)
Definition logged (c : call) (w : world) : world :=
  {| calls := w.(calls) ++ [c]; drawn := w.(drawn) |}.

(** A call to the outside, recorded before its outcome is looked at. *)
Definition perform {A : Type} (c : call) (r : exn + A) : M A :=
  fun w => (logged c w, r).

(** The next value of a source that answers differently at each call. *)
Definition draw {A : Type} (source : nat -> A) : M A :=
  fun w => ({| calls := w.(calls); drawn := S w.(drawn) |},
            inr (source w.(drawn))).

(** [try: body except ...: handler]; the handler answers [None] for an
    exception none of its clauses catches. *)
Definition try_except {A : Type}
    (body : M A) (handler : exn -> option (M A)) : M A :=
  fun w =>
    match body w with
    | (w', inl e) =>
        match handler e with
        | Some h => h w'
        | None => (w', inl e)
        end
    | (w', inr x) => (w', inr x)
    end.

Definition initial_world : world := {| calls := []; drawn := 0 |}.

(** ** The outside of the module *)

Class Services : Type :=
  { (** PyPDF2 *)
    Page : Type;
    PdfReader : bytes -> exn + list Page;
    extract_text : Page -> exn + str;
    (** PIL and pytesseract *)
    Image : Type;
    Image_open : bytes -> exn + Image;
    Image_mode : Image -> str;
    Image_convert : Image -> str -> exn + Image;
    image_to_string : Image -> exn + str;
    (** the chat client *)
    send_message : LlmChat -> UserMessage -> exn + str;
    (** the standard library *)
    environ : gmap str str;
    json_loads : str -> exn + pyvalue;
    uuid4 : nat -> str;
    utcnow : nat -> Z;
    (** [str(e)] for an [HTTPException] *)
    HTTPException_str : HTTPException -> str;
    (** what pydantic makes of a value that is neither [None] nor a
        [str] in an [Optional[str]] field: a string, or no string and a
        [ValidationError] *)
    coerce_str : pyvalue -> option str }.

(** ** Models *)

Record DocumentAnalysisResult : Type :=
  { id : str;
    effective_date : option str;
    insured_party : option str;
    underwriter : option str;
    legal_description : option str;
    exceptions : option str;
    policy_amount : option str;
    compliance_notes : list str;
    processing_status : str;
    timestamp : Z }.

(** The upload as the handler sees it: the declared size, the declared
    content type and what [read()] returns. *)
Record UploadFile : Type :=
  { size : option Z;
    content_type : option str;
    content : bytes }.

(** ** Pattern search

    [re.search(r'\{.*\}', response, re.DOTALL)]: the match starts at the
    first opening brace and, as the star is greedy and the dot matches
    every character, ends at the last closing brace after it; there is
    no match when no closing brace follows the first opening one. *)
Definition open_brace : N := 123%N.
Definition close_brace : N := 125%N.

Fixpoint after_first_open (s : str) : option str :=
  match s with
  | [] => None
  | c :: rest => if (c =? open_brace)%N then Some rest else after_first_open rest
  end.

Fixpoint upto_last_close (s : str) : option str :=
  match s with
  | [] => None
  | c :: rest =>
      match upto_last_close rest with
      | Some inner => Some (c :: inner)
      | None => if (c =? close_brace)%N then Some [c] else None
      end
  end.

Definition re_search_braces (response : str) : option str :=
  match after_first_open response with
  | Some rest =>
      match upto_last_close rest with
      | Some inner => Some (open_brace :: inner)
      | None => None
      end
  | None => None
  end.

(** ** Literals of the request handler *)

(** The lines of a triple-quoted literal, joined by newlines. *)
Fixpoint join_lines (ls : list str) : str :=
  match ls with
  | [] => []
  | [l] => l
  | l :: rest => l ++ newline :: join_lines rest
  end.

Definition SYSTEM_MESSAGE : str :=
  join_lines
    [ lit "You are a specialized document analyst for mortgage title insurance documents. ";
      lit "            Your task is to extract specific information from title insurance or title policy documents.";
      lit "            ";
      lit "            Extract the following 6 key fields and return them in JSON format:";
      lit "            1. effective_date: The policy effective date";
      lit "            2. insured_party: The name of the insured party/parties";
      lit "            3. underwriter: The insurance company/underwriter name";
      lit "            4. legal_description: The legal description of the property";
      lit "            5. exceptions: Any exceptions or exclusions listed";
      lit "            6. policy_amount: The policy coverage amount";
      lit "            ";
      lit "            If any field is not found or unclear, return null for that field.";
      lit "            Return ONLY valid JSON with these exact field names." ].

Definition USER_PROMPT : str :=
  lit "Please analyze this title insurance document text and extract the 6 key fields in JSON format:"
  ++ [newline; newline].

Definition TEXT_LIMIT : nat := 4000.

Definition MAX_FILE_SIZE : Z := (10 * 1024 * 1024)%Z.

Definition allowed_types : list str :=
  [ lit "application/pdf";
    lit "image/jpeg"; lit "image/jpg"; lit "image/png"; lit "image/tiff";
    lit "image/bmp" ].

Definition http (status : Z) (message : str) : exn :=
  EHTTP {| status_code := status; detail := message |}.

Definition size_error : exn :=
  http 400 (lit "File size exceeds 10MB limit").
Definition type_error : exn :=
  http 400 (lit "Unsupported file type. Please upload PDF or image files.").
Definition empty_text_error : exn :=
  http 400 (lit "No text could be extracted from the document").
Definition pdf_error : exn :=
  http 400 (lit "Failed to extract text from PDF").
Definition image_error : exn :=
  http 400 (lit "Failed to extract text from image").
Definition key_error : exn :=
  http 500 (lit "OpenAI API key not configured").
Definition internal_error : exn :=
  http 500 (lit "Internal server error during document analysis").

(** The fallback of [analyze_document_with_openai]: every field [None]. *)
Definition empty_result : gmap str pyvalue :=
  <[Field.policy_amount := PNone]>
    (<[Field.exceptions := PNone]>
      (<[Field.legal_description := PNone]>
        (<[Field.underwriter := PNone]>
          (<[Field.insured_party := PNone]>
            (<[Field.effective_date := PNone]> ∅))))).

(** ** The request handler *)

Section Pipeline.

Context `{Services}.

(** [str(e)] *)
Definition exn_str (e : exn) : str :=
  match e with
  | EHTTP h => HTTPException_str h
  | EJSONDecode msg => msg
  | EOther msg => msg
  end.

(** The loop of [extract_text_from_pdf]:
    [for page in pdf_reader.pages: text += page.extract_text() + "\n"]. *)
Fixpoint pages_loop (pages : list Page) (text : str) : M str :=
  match pages with
  | [] => mret text
  | page :: rest =>
      page_text ← perform CallExtractText (extract_text page);
      pages_loop rest (text ++ (page_text ++ [newline]))
  end.

Definition extract_text_from_pdf (pdf_bytes : bytes) : M str :=
  try_except
    (pages ← perform (CallPdfReader pdf_bytes) (PdfReader pdf_bytes);
     text ← pages_loop pages [];
     mret text)
    (fun e => Some (raise pdf_error)).

Definition extract_text_from_image (image_bytes : bytes) : M str :=
  try_except
    (image ← perform (CallImageOpen image_bytes) (Image_open image_bytes);
     image ← (if bool_decide (Image_mode image ≠ lit "RGB")
              then perform (CallImageConvert (lit "RGB"))
                           (Image_convert image (lit "RGB"))
              else mret image);
     text ← perform CallImageToString (image_to_string image);
     mret text)
    (fun e => Some (raise image_error)).

(** The inner [try] of [analyze_document_with_openai]: the reply as
    JSON, else the text between the first opening and the last closing
    brace as JSON, else the empty result.  The second [json.loads] sits
    in the handler, outside the protection of the [try]. *)
Definition parse_response (response : str) : M pyvalue :=
  try_except
    (result ← lift (json_loads response);
     mret result)
    (fun e =>
       match e with
       | EJSONDecode _ =>
           Some
             match re_search_braces response with
             | Some json_match =>
                 result ← lift (json_loads json_match);
                 mret result
             | None => mret (PDict empty_result)
             end
       | _ => None
       end).

Definition analyze_document_with_openai
    (extracted_text : str) (session_id : str) : M pyvalue :=
  try_except
    (let openai_api_key := environ !! lit "OPENAI_API_KEY" in
     match openai_api_key with
     | Some key =>
         if nonempty key then
           let chat :=
             with_model (new_LlmChat key session_id SYSTEM_MESSAGE)
                        (lit "openai") (lit "gpt-4o-mini") in
           let user_message :=
             {| text := USER_PROMPT ++ slice_to TEXT_LIMIT extracted_text |} in
           response ← perform (CallSendMessage chat user_message)
                              (send_message chat user_message);
           parse_response response
         else raise key_error
     | None => raise key_error
     end)
    (fun e =>
       Some (raise (http 500 (lit "Failed to analyze document: " ++ exn_str e)))).

(** pydantic on an [Optional[str]] field. *)
Definition optional_str (v : pyvalue) : exn + option str :=
  match v with
  | PNone => inr None
  | PStr s => inr (Some s)
  | _ => match coerce_str v with
         | None => inl (EOther (lit "ValidationError"))
         | Some s => inr (Some s)
         end
  end.

(** [x.get(key)] on the value [json.loads] returned: only a [dict] has
    the method. *)
Definition py_get (x : pyvalue) (key : str) : exn + pyvalue :=
  match x with
  | PDict d => inr (dict_get d key)
  | _ => inl (EOther (lit "AttributeError"))
  end.

Definition py_generate_compliance_notes (x : pyvalue) : exn + list str :=
  match x with
  | PDict d => inr (generate_compliance_notes d)
  | _ => inl (EOther (lit "AttributeError"))
  end.

(** [DocumentAnalysisResult(...)] as [analyze_document] calls it: [id]
    and [timestamp] come from their default factories and the six
    fields are validated as [Optional[str]]; a validation failure is
    raised once every field has been looked at, so both factories have
    run by then. *)
Definition new_DocumentAnalysisResult
    (v_effective_date v_insured_party v_underwriter v_legal_description
       v_exceptions v_policy_amount : pyvalue)
    (notes : list str) (status : str) : M DocumentAnalysisResult :=
  new_id ← draw uuid4;
  now ← draw utcnow;
  f1 ← lift (optional_str v_effective_date);
  f2 ← lift (optional_str v_insured_party);
  f3 ← lift (optional_str v_underwriter);
  f4 ← lift (optional_str v_legal_description);
  f5 ← lift (optional_str v_exceptions);
  f6 ← lift (optional_str v_policy_amount);
  mret {| id := new_id;
          effective_date := f1;
          insured_party := f2;
          underwriter := f3;
          legal_description := f4;
          exceptions := f5;
          policy_amount := f6;
          compliance_notes := notes;
          processing_status := status;
          timestamp := now |}.

(** [file.size and file.size > 10 * 1024 * 1024] *)
Definition size_too_large (file : UploadFile) : bool :=
  match file.(size) with
  | None => false
  | Some n => negb (n =? 0)%Z && (MAX_FILE_SIZE <? n)%Z
  end.

(** [file.content_type in allowed_types] *)
Definition type_allowed (file : UploadFile) : bool :=
  match file.(content_type) with
  | None => false
  | Some t => bool_decide (t ∈ allowed_types)
  end.

(** The dispatch on the content type, [extracted_text = ...]. *)
Definition extract_text_by_type
    (file : UploadFile) (file_content : bytes) : M str :=
  if bool_decide (file.(content_type) = Some (lit "application/pdf"))
  then extract_text_from_pdf file_content
  else extract_text_from_image file_content.

Definition analyze_document (file : UploadFile) : M DocumentAnalysisResult :=
  try_except
    ((if size_too_large file then raise size_error else mret tt);;
     (if negb (type_allowed file) then raise type_error else mret tt);;
     file_content ← perform CallRead (inr file.(content));
     extracted_text ← extract_text_by_type file file_content;
     (if negb (nonempty (strip extracted_text))
      then raise empty_text_error else mret tt);;
     session_id ← draw uuid4;
     analysis_result ← analyze_document_with_openai extracted_text session_id;
     compliance_notes ← lift (py_generate_compliance_notes analysis_result);
     v1 ← lift (py_get analysis_result Field.effective_date);
     v2 ← lift (py_get analysis_result Field.insured_party);
     v3 ← lift (py_get analysis_result Field.underwriter);
     v4 ← lift (py_get analysis_result Field.legal_description);
     v5 ← lift (py_get analysis_result Field.exceptions);
     v6 ← lift (py_get analysis_result Field.policy_amount);
     result ← new_DocumentAnalysisResult v1 v2 v3 v4 v5 v6
                compliance_notes (lit "completed");
     mret result)
    (fun e =>
       match e with
       | EHTTP _ => Some (raise e)
       | _ => Some (raise internal_error)
       end).

End Pipeline.

(** ** A reference decoder for [json.loads]

    The grammar of [json.decoder] and [json.scanner]: objects, arrays,
    strings with their escapes (strict mode), numbers, [true], [false],
    [null] and the constants [NaN], [Infinity] and [-Infinity];
    whitespace is space, tab, line feed and carriage return.  [None]
    stands for [JSONDecodeError].  The interpreter's recursion limit is
    not part of the model: each function carries a bound on the number
    of nested calls, and [loads] starts with more than the input can
    use. *)
Module Json.

Definition is_ws (c : N) : bool :=
  ((c =? 32) || (c =? 9) || (c =? 10) || (c =? 13))%N.

Fixpoint skip_ws (s : str) : str :=
  match s with
  | [] => []
  | c :: rest => if is_ws c then skip_ws rest else s
  end.

Definition is_digit (c : N) : bool := ((48 <=? c) && (c <=? 57))%N.

Definition hex_digit (c : N) : option N :=
  if ((48 <=? c) && (c <=? 57))%N then Some (c - 48)%N
  else if ((97 <=? c) && (c <=? 102))%N then Some (c - 87)%N
  else if ((65 <=? c) && (c <=? 70))%N then Some (c - 55)%N
  else None.

(** The four hexadecimal digits after [\u]. *)
Definition decode_uXXXX (s : str) : option (N * str) :=
  match s with
  | a :: b :: c :: d :: rest =>
      x1 ← hex_digit a; x2 ← hex_digit b;
      x3 ← hex_digit c; x4 ← hex_digit d;
      Some ((((x1 * 16 + x2) * 16 + x3) * 16 + x4)%N, rest)
  | _ => None
  end.

(** The one-letter escapes. *)
Definition backslash (esc : N) : option N :=
  if (esc =? 34)%N then Some 34%N
  else if (esc =? 92)%N then Some 92%N
  else if (esc =? 47)%N then Some 47%N
  else if (esc =? 98)%N then Some 8%N
  else if (esc =? 102)%N then Some 12%N
  else if (esc =? 110)%N then Some 10%N
  else if (esc =? 114)%N then Some 13%N
  else if (esc =? 116)%N then Some 9%N
  else None.

Definition is_high_surrogate (c : N) : bool :=
  ((0xD800 <=? c) && (c <=? 0xDBFF))%N.
Definition is_low_surrogate (c : N) : bool :=
  ((0xDC00 <=? c) && (c <=? 0xDFFF))%N.
Definition join_surrogates (hi lo : N) : N :=
  (0x10000 + ((hi - 0xD800) * 0x400 + (lo - 0xDC00)))%N.

(** [scanstring]: the input starts after the opening quote; the result
    is the decoded string and the input after the closing quote. *)
Fixpoint scanstring (fuel : nat) (s chunks : str) : option (str * str) :=
  match fuel with
  | O => None
  | S fuel =>
      match s with
      | [] => None
      | c :: s1 =>
          if (c =? 34)%N then Some (chunks, s1)
          else if (c =? 92)%N then
            match s1 with
            | [] => None
            | esc :: s2 =>
                if (esc =? 117)%N then
                  '(uni, s3) ← decode_uXXXX s2;
                  match s3 with
                  | b :: u :: s4 =>
                      if is_high_surrogate uni && (b =? 92)%N && (u =? 117)%N
                      then
                        '(uni2, s5) ← decode_uXXXX s4;
                        if is_low_surrogate uni2
                        then scanstring fuel s5
                               (chunks ++ [join_surrogates uni uni2])
                        else scanstring fuel s3 (chunks ++ [uni])
                      else scanstring fuel s3 (chunks ++ [uni])
                  | _ => scanstring fuel s3 (chunks ++ [uni])
                  end
                else
                  char ← backslash esc;
                  scanstring fuel s2 (chunks ++ [char])
            end
          else if (c <? 32)%N then None
          else scanstring fuel s1 (chunks ++ [c])
      end
  end.

Fixpoint span_digits (s : str) : str * str :=
  match s with
  | [] => ([], [])
  | c :: rest =>
      if is_digit c
      then let '(ds, tail) := span_digits rest in (c :: ds, tail)
      else ([], s)
  end.

Definition digits_value (ds : str) : Z :=
  fold_left (fun acc d => (10 * acc + (Z.of_N d - 48))%Z) ds 0%Z.

(** The integer part: [0], or a non-zero digit and the digits after it. *)
Definition integer_part (s : str) : option (str * str) :=
  match s with
  | [] => None
  | d :: rest =>
      if (d =? 48)%N then Some ([d], rest)
      else if is_digit d then Some (span_digits s)
      else None
  end.

(** [\.\d+], when it is there. *)
Definition fraction_part (s : str) : option str * str :=
  match s with
  | dot :: rest =>
      if (dot =? 46)%N then
        match span_digits rest with
        | ([], _) => (None, s)
        | (ds, tail) => (Some ds, tail)
        end
      else (None, s)
  | [] => (None, s)
  end.

(** [[eE][-+]?\d+], when it is there. *)
Definition exponent_part (s : str) : option Z * str :=
  match s with
  | e :: rest =>
      if ((e =? 101) || (e =? 69))%N then
        let '(sign, rest') :=
          match rest with
          | c :: tail =>
              if (c =? 45)%N then ((-1)%Z, tail)
              else if (c =? 43)%N then (1%Z, tail)
              else (1%Z, rest)
          | [] => (1%Z, rest)
          end in
        match span_digits rest' with
        | ([], _) => (None, s)
        | (ds, tail) => (Some (sign * digits_value ds)%Z, tail)
        end
      else (None, s)
  | [] => (None, s)
  end.

(** [NUMBER_RE]: an [int] when there is neither fraction nor exponent,
    a [float] otherwise. *)
Definition match_number (s : str) : option (pyvalue * str) :=
  let '(sign, s1) :=
    match s with
    | c :: rest => if (c =? 45)%N then ((-1)%Z, rest) else (1%Z, s)
    | [] => (1%Z, s)
    end in
  '(int_digits, s2) ← integer_part s1;
  let '(frac, s3) := fraction_part s2 in
  let '(exp, s4) := exponent_part s3 in
  match frac, exp with
  | None, None => Some (PInt (sign * digits_value int_digits), s4)
  | _, _ =>
      let frac_digits := default [] frac in
      Some (PFloat (FDec (sign * digits_value (int_digits ++ frac_digits))
                         (default 0%Z exp - Z.of_nat (length frac_digits))),
            s4)
  end.

(** [s] starts with the literal [word]: the rest of [s] after it. *)
Fixpoint after_word (word s : str) : option str :=
  match word with
  | [] => Some s
  | w :: word' =>
      match s with
      | c :: rest => if (c =? w)%N then after_word word' rest else None
      | [] => None
      end
  end.

Fixpoint scan_once (fuel : nat) (s : str) : option (pyvalue * str) :=
  match fuel with
  | O => None
  | S fuel =>
      match s with
      | [] => None
      | c :: rest =>
          if (c =? 34)%N then
            '(chunks, tail) ← scanstring (length rest) rest [];
            Some (PStr chunks, tail)
          else if (c =? 123)%N then
            match skip_ws rest with
            | q :: tail =>
                if (q =? 125)%N then Some (PDict ∅, tail)
                else if (q =? 34)%N then object_members fuel tail ∅
                else None
            | [] => None
            end
          else if (c =? 91)%N then
            match skip_ws rest with
            | q :: tail =>
                if (q =? 93)%N then Some (PList [], tail)
                else array_values fuel (q :: tail) []
            | [] => None
            end
          else
            match after_word (lit "null") s,
                  after_word (lit "true") s,
                  after_word (lit "false") s with
            | Some tail, _, _ => Some (PNone, tail)
            | _, Some tail, _ => Some (PBool true, tail)
            | _, _, Some tail => Some (PBool false, tail)
            | None, None, None =>
                match match_number s with
                | Some r => Some r
                | None =>
                    match after_word (lit "NaN") s,
                          after_word (lit "Infinity") s,
                          after_word (lit "-Infinity") s with
                    | Some tail, _, _ => Some (PFloat FNaN, tail)
                    | _, Some tail, _ => Some (PFloat (FInf false), tail)
                    | _, _, Some tail => Some (PFloat (FInf true), tail)
                    | None, None, None => None
                    end
                end
            end
      end
  end

(** [JSONObject], entered after the opening quote of a key. *)
with object_members (fuel : nat) (s : str) (pairs : gmap str pyvalue)
  : option (pyvalue * str) :=
  match fuel with
  | O => None
  | S fuel =>
      '(key, s1) ← scanstring (length s) s [];
      match skip_ws s1 with
      | colon :: s2 =>
          if (colon =? 58)%N then
            '(value, s3) ← scan_once fuel (skip_ws s2);
            let pairs := <[key := value]> pairs in
            match skip_ws s3 with
            | sep :: s4 =>
                if (sep =? 125)%N then Some (PDict pairs, s4)
                else if (sep =? 44)%N then
                  match skip_ws s4 with
                  | q :: s5 =>
                      if (q =? 34)%N then object_members fuel s5 pairs
                      else None
                  | [] => None
                  end
                else None
            | [] => None
            end
          else None
      | [] => None
      end
  end

(** [JSONArray], entered at the start of a value. *)
with array_values (fuel : nat) (s : str) (values : list pyvalue)
  : option (pyvalue * str) :=
  match fuel with
  | O => None
  | S fuel =>
      '(value, s1) ← scan_once fuel s;
      let values := values ++ [value] in
      match skip_ws s1 with
      | sep :: s2 =>
          if (sep =? 93)%N then Some (PList values, s2)
          else if (sep =? 44)%N then array_values fuel (skip_ws s2) values
          else None
      | [] => None
      end
  end.

(** [JSONDecoder.decode]: one value between optional whitespace, and
    nothing after it. *)
Definition loads (s : str) : option pyvalue :=
  '(value, tail) ← scan_once (2 * length s + 2) (skip_ws s);
  match skip_ws tail with
  | [] => Some value
  | _ => None
  end.

End Json.

(** ** Field maps and result slots *)

(** A raw field map: each of the six names is absent, [None] or a
    string.  Other keys are not looked at. *)
Definition is_field_value (v : option pyvalue) : bool :=
  match v with
  | None | Some PNone | Some (PStr _) => true
  | Some _ => false
  end.

Definition is_raw_field_map (m : gmap str pyvalue) : bool :=
  forallb (fun k => is_field_value (m !! k)) Field.all.

(** The entry of a field map as a result slot. *)
Definition slot (m : gmap str pyvalue) (k : str) : option str :=
  match m !! k with
  | Some (PStr s) => Some s
  | _ => None
  end.

(** The calls a request has added to those of [w]. *)
Definition calls_since (w w' : world) : list call :=
  drop (length w.(calls)) w'.(calls).

Definition is_send_message (c : call) : bool :=
  match c with
  | CallSendMessage _ _ => true
  | _ => false
  end.

(** The calls that belong to text extraction. *)
Definition is_extraction_call (c : call) : bool :=
  match c with
  | CallPdfReader _ | CallExtractText | CallImageOpen _
  | CallImageConvert _ | CallImageToString => true
  | CallRead | CallSendMessage _ _ => false
  end.

(** ** A fixture of the outside services

    A deterministic stand-in for the libraries, to run requests on.  A
    PDF is the four bytes [%PDF] followed by its pages, each ended by a
    form feed; an image is one byte for its colour mode ([L] for
    greyscale) followed by the text it shows.  The chat service answers
    with [reply]; decoding is done by [Json.loads]. *)
Module Fixture.

Definition code_of (b : byte) : N := Byte.to_N b.

Definition magic : bytes := [x25; x50; x44; x46].

Fixpoint split_pages (body : bytes) (page : str) : list str :=
  match body with
  | [] => []
  | b :: rest =>
      if Byte.eqb b x0c then page :: split_pages rest []
      else split_pages rest (page ++ [code_of b])
  end.

Definition read_pdf (b : bytes) : exn + list str :=
  match b with
  | b1 :: b2 :: b3 :: b4 :: body =>
      if Byte.eqb b1 x25 && Byte.eqb b2 x50 && Byte.eqb b3 x44 && Byte.eqb b4 x46
      then inr (split_pages body [])
      else inl (EOther (lit "PdfReadError"))
  | _ => inl (EOther (lit "PdfReadError"))
  end.

Definition open_image (b : bytes) : exn + (str * str) :=
  match b with
  | [] => inl (EOther (lit "UnidentifiedImageError"))
  | mode :: shown =>
      inr (if Byte.eqb mode x4c then lit "L" else lit "RGB",
           code_of <$> shown)
  end.

Definition decode (s : str) : exn + pyvalue :=
  match Json.loads s with
  | Some v => inr v
  | None => inl (EJSONDecode (lit "JSONDecodeError"))
  end.

Definition services (reply : str) : Services :=
  {| Page := str;
     PdfReader := read_pdf;
     extract_text := fun page => inr page;
     Image := str * str;
     Image_open := open_image;
     Image_mode := fst;
     Image_convert := fun image mode => inr (mode, snd image);
     image_to_string := fun image => inr (snd image);
     send_message := fun _ _ => inr reply;
     environ := {[ lit "OPENAI_API_KEY" := lit "sk-test" ]};
     json_loads := decode;
     uuid4 := fun n => lit "uuid-" ++ [(48 + N.of_nat n)%N];
     utcnow := fun n => Z.of_nat n;
     HTTPException_str := fun e => e.(detail);
     coerce_str := fun _ => None |}.

(** [%PDF] and the pages, each followed by a form feed. *)
Definition pdf_of (pages : list string) : bytes :=
  magic
  ++ concat ((fun page => String.list_byte_of_string page ++ [x0c]) <$> pages).

Definition pdf_upload (pages : list string) : UploadFile :=
  {| size := Some (Z.of_nat (length (pdf_of pages)));
     content_type := Some (lit "application/pdf");
     content := pdf_of pages |}.

(** A JSON text written with apostrophes in place of double quotes. *)
Definition quoted (s : string) : str :=
  (fun c => if (c =? 39)%N then 34%N else c) <$> lit s.

(** A well-formed reply and the field map it denotes. *)
Definition sample_reply : str :=
  quoted "{'effective_date': '2024-01-15', 'underwriter': null, 'exceptions': ''}".

Definition sample_fields : gmap str pyvalue :=
  <[Field.effective_date := PStr (lit "2024-01-15")]>
    (<[Field.underwriter := PNone]>
      (<[Field.exceptions := PStr []]> ∅)).

(** A reply in which the braces hold a Python literal, not JSON. *)
Definition python_reply : str := lit "Result: {'effective_date': None}".

(** An upload that declares one byte more than the limit. *)
Definition oversized_upload : UploadFile :=
  {| size := Some (10 * 1024 * 1024 + 1)%Z;
     content_type := Some (lit "application/pdf");
     content := [] |}.

(** An upload that declares no size. *)
Definition unsized_upload : UploadFile :=
  {| size := None;
     content_type := Some (lit "application/pdf");
     content := pdf_of ["Policy"%string] |}.

(** The chat and the message of a request on [extracted_text]. *)
Definition chat_of (session_id : str) : LlmChat :=
  with_model (new_LlmChat (lit "sk-test") session_id SYSTEM_MESSAGE)
             (lit "openai") (lit "gpt-4o-mini").

Definition message_of (extracted_text : str) : UserMessage :=
  {| text := USER_PROMPT ++ slice_to TEXT_LIMIT extracted_text |}.

End Fixture.

(** ** The health endpoint *)

Module Health.

(** The answer of [health_check]: a mapping with the keys [status],
    [timestamp] and [services], the last one a mapping with the keys
    [tesseract] and [openai]. *)
Record services_report : Type :=
  { tesseract : str; openai : str }.

Record report : Type :=
  { status : str; timestamp : Z; services : services_report }.

End Health.

Section Endpoints.

Context `{Services}.

(** [bool(os.environ.get(name))] *)
Definition environ_set (name : str) : bool :=
  match environ !! name with
  | Some value => nonempty value
  | None => false
  end.

Definition health_check : M Health.report :=
  now ← draw utcnow;
  mret {| Health.status := lit "healthy";
          Health.timestamp := now;
          Health.services :=
            {| Health.tesseract := lit "available";
               Health.openai :=
                 if environ_set (lit "OPENAI_API_KEY")
                 then lit "configured" else lit "not configured" |} |}.

End Endpoints.

(** ** Kinds of calls *)

(** The calls into PyPDF2. *)
Definition is_pdf_call (c : call) : bool :=
  match c with
  | CallPdfReader _ | CallExtractText => true
  | _ => false
  end.

(** The calls into PIL and pytesseract. *)
Definition is_image_call (c : call) : bool :=
  match c with
  | CallImageOpen _ | CallImageConvert _ | CallImageToString => true
  | _ => false
  end.

(** [status_code] of the exception a request ends with, when it is an
    [HTTPException]. *)
Definition http_status (e : exn) : option Z :=
  match e with
  | EHTTP h => Some h.(status_code)
  | _ => None
  end.

(** ** The test harness (backend_test.py, backend_test_basic.py) *)

(** [s.startswith(prefix)] *)
Fixpoint startswith (s prefix : str) : bool :=
  match prefix with
  | [] => true
  | p :: prefix' =>
      match s with
      | c :: s' => (c =? p)%N && startswith s' prefix'
      | [] => false
      end
  end.

(** [s.split(sep, 1)] for a separator of one character: the whole
    string when the separator does not occur, else what is before and
    what is after its first occurrence. *)
Fixpoint split_once (s : str) (sep : N) : list str :=
  match s with
  | [] => [[]]
  | c :: rest =>
      if (c =? sep)%N then [[]; rest]
      else match split_once rest sep with
           | before :: parts => (c :: before) :: parts
           | [] => []
           end
  end.

Definition BACKEND_URL_KEY : str := lit "REACT_APP_BACKEND_URL=".

Definition DEFAULT_BACKEND_URL : str := lit "http://localhost:8001".

(** The loop of [get_backend_url] over the lines of the file; [None]
    when no line returns. *)
Fixpoint backend_url_loop (lines : list str) : option (exn + str) :=
  match lines with
  | [] => None
  | line :: rest =>
      if startswith line BACKEND_URL_KEY then
        Some match split_once line 61%N !! 1%nat with
             | Some value => inr (strip value)
             | None => inl (EOther (lit "IndexError"))
             end
      else backend_url_loop rest
  end.

(** [get_backend_url()], from the lines of [/app/frontend/.env], or
    [None] when the file does not exist. *)
Definition get_backend_url (frontend_env : option (list str)) : exn + str :=
  match frontend_env with
  | Some lines =>
      match backend_url_loop lines with
      | Some outcome => outcome
      | None => inr DEFAULT_BACKEND_URL
      end
  | None => inr DEFAULT_BACKEND_URL
  end.

Module TestResults.

(** One element of [self.results]. *)
Record entry : Type :=
  { test : str; passed : bool; message : str }.

End TestResults.

(** The attributes of a [TestResults] object. *)
Record TestResults : Type :=
  { passed : Z; failed : Z; results : list TestResults.entry }.

(** [TestResults()] *)
Definition new_TestResults : TestResults :=
  {| passed := 0; failed := 0; results := [] |}.

Definition check_mark_button : str := [0x2705]%N.
Definition cross_mark : str := [0x274C]%N.

(** [self.add_result(test_name, passed, message)]: the object
    afterwards and the line printed. *)
Definition add_result
    (self : TestResults) (test_name : str) (ok : bool) (message : str)
  : TestResults * str :=
  let results' :=
    self.(results)
    ++ [{| TestResults.test := test_name;
           TestResults.passed := ok;
           TestResults.message := message |}] in
  if ok then
    ({| passed := self.(passed) + 1;
        failed := self.(failed);
        results := results' |},
     check_mark_button ++ lit " " ++ test_name)
  else
    ({| passed := self.(passed);
        failed := self.(failed) + 1;
        results := results' |},
     cross_mark ++ lit " " ++ test_name ++ lit ": " ++ message).

(** The object after a series of [add_result] calls. *)
Definition add_results
    (self : TestResults) (reports : list (str * bool * str)) : TestResults :=
  fold_left
    (fun self '(test_name, ok, message) =>
       fst (add_result self test_name ok message))
    reports self.

(** The exit code of [main]: [0 if results.failed == 0 else 1]. *)
Definition exit_code (self : TestResults) : Z :=
  if (self.(failed) =? 0)%Z then 0%Z else 1%Z.

(** ** More requests for the fixture *)

Module Sample.

(** A fixture without the key in the environment. *)
Definition without_key (reply : str) : Services :=
  {| Page := str;
     PdfReader := Fixture.read_pdf;
     extract_text := fun page => inr page;
     Image := str * str;
     Image_open := Fixture.open_image;
     Image_mode := fst;
     Image_convert := fun image mode => inr (mode, snd image);
     image_to_string := fun image => inr (snd image);
     send_message := fun _ _ => inr reply;
     environ := ∅;
     json_loads := Fixture.decode;
     uuid4 := fun n => lit "uuid-" ++ [(48 + N.of_nat n)%N];
     utcnow := fun n => Z.of_nat n;
     HTTPException_str := fun e => e.(detail);
     coerce_str := fun _ => None |}.

(** A fixture whose chat service raises. *)
Definition failing_chat (message : str) : Services :=
  {| Page := str;
     PdfReader := Fixture.read_pdf;
     extract_text := fun page => inr page;
     Image := str * str;
     Image_open := Fixture.open_image;
     Image_mode := fst;
     Image_convert := fun image mode => inr (mode, snd image);
     image_to_string := fun image => inr (snd image);
     send_message := fun _ _ => inl (EOther message);
     environ := {[ lit "OPENAI_API_KEY" := lit "sk-test" ]};
     json_loads := Fixture.decode;
     uuid4 := fun n => lit "uuid-" ++ [(48 + N.of_nat n)%N];
     utcnow := fun n => Z.of_nat n;
     HTTPException_str := fun e => e.(detail);
     coerce_str := fun _ => None |}.

(** A fixture whose PDF pages are single bytes and whose page extraction
    raises on the byte [!]. *)
Definition fragile_pages (reply : str) : Services :=
  {| Page := byte;
     PdfReader := fun b => inr b;
     extract_text :=
       fun page =>
         if Byte.eqb page x21 then inl (EOther (lit "PdfReadError"))
         else inr [Fixture.code_of page];
     Image := str * str;
     Image_open := Fixture.open_image;
     Image_mode := fst;
     Image_convert := fun image mode => inr (mode, snd image);
     image_to_string := fun image => inr (snd image);
     send_message := fun _ _ => inr reply;
     environ := {[ lit "OPENAI_API_KEY" := lit "sk-test" ]};
     json_loads := Fixture.decode;
     uuid4 := fun n => lit "uuid-" ++ [(48 + N.of_nat n)%N];
     utcnow := fun n => Z.of_nat n;
     HTTPException_str := fun e => e.(detail);
     coerce_str := fun _ => None |}.

Definition upload (declared_type : string) (payload : bytes) : UploadFile :=
  {| size := Some (Z.of_nat (length payload));
     content_type := Some (lit declared_type);
     content := payload |}.

(** A greyscale image showing [shown]. *)
Definition grey_image (shown : string) : bytes :=
  x4c :: String.list_byte_of_string shown.

(** An RGB image showing [shown]. *)
Definition rgb_image (shown : string) : bytes :=
  x52 :: String.list_byte_of_string shown.

(** A one-page PDF whose text is 4000 spaces followed by [x]. *)
Definition padded_pdf : bytes :=
  Fixture.magic ++ repeat x20 4000 ++ [x78; x0c].

Definition padded_text : str :=
  repeat 32%N 4000 ++ [120%N; newline].

(** A reply that is a JSON array. *)
Definition array_reply : str := lit "[1, 2]".

(** A reply whose [exceptions] field is a list of strings. *)
Definition list_field_reply : str :=
  Fixture.quoted "{'effective_date': '2024-01-15', 'exceptions': ['Easement', 'Covenants']}".

(** A reply that wraps its JSON object in prose. *)
Definition wrapped_reply : str :=
  Fixture.quoted "Here is the result: {'underwriter': 'First American'} as requested.".

(** The fields [list_field_reply] denotes. *)
Definition list_fields : gmap str pyvalue :=
  <[Field.effective_date := PStr (lit "2024-01-15")]>
    (<[Field.exceptions :=
         PList [PStr (lit "Easement"); PStr (lit "Covenants")]]> ∅).

(** The one-page PDF upload used below, its text, and the worlds of its
    request after text extraction and at the end. *)
Definition policy_upload : UploadFile := Fixture.pdf_upload ["Policy"%string].

Definition policy_text : str := lit "Policy" ++ [newline].

Definition after_extraction : world :=
  {| calls := [CallRead; CallPdfReader (Fixture.pdf_of ["Policy"%string]);
               CallExtractText];
     drawn := 0 |}.

Definition policy_message : call :=
  CallSendMessage (Fixture.chat_of (lit "uuid-0"))
                  (Fixture.message_of policy_text).

Definition after_request : world :=
  {| calls := [CallRead; CallPdfReader (Fixture.pdf_of ["Policy"%string]);
               CallExtractText; policy_message];
     drawn := 3 |}.

(** The record of the request on [policy_upload] when the reply is
    [Fixture.sample_reply]. *)
Definition policy_record : DocumentAnalysisResult :=
  {| id := lit "uuid-1";
     effective_date := Some (lit "2024-01-15");
     insured_party := None;
     underwriter := None;
     legal_description := None;
     exceptions := Some [];
     policy_amount := None;
     compliance_notes :=
       [Note.policy_amount_missing; Note.legal_description_missing;
        Note.standard_coverage; Note.reviewed];
     processing_status := lit "completed";
     timestamp := 2 |}.

End Sample.

(** * Properties *)

(** ** The note generator *)

(** Case analysis on the five tests of [generate_compliance_notes]. *)
Ltac notes_cases m :=
  unfold generate_compliance_notes, append;
  destruct (truthy (dict_get m Field.effective_date));
  destruct (truthy (dict_get m Field.policy_amount));
  destruct (truthy (dict_get m Field.legal_description));
  destruct (truthy (dict_get m Field.exceptions));
  destruct (truthy (dict_get m Field.underwriter));
  cbn [negb app].

(** A closed, decidable statement holds when its decision procedure
    evaluates to [true]. *)
Ltac by_evaluation :=
  match goal with
  | |- ?P => apply (bool_decide_unpack P); vm_compute; reflexivity
  end.

(** The generator reads five truth values and nothing else. *)
Lemma notes_truthy_ext (m1 m2 : gmap str pyvalue) :
  (forall k,
      k ∈ [Field.effective_date; Field.policy_amount;
           Field.legal_description; Field.exceptions; Field.underwriter] ->
      truthy (dict_get m1 k) = truthy (dict_get m2 k)) ->
  generate_compliance_notes m1 = generate_compliance_notes m2.
Proof.
  intros Hsame. unfold generate_compliance_notes.
  rewrite !(Hsame Field.effective_date), !(Hsame Field.policy_amount),
    !(Hsame Field.legal_description), !(Hsame Field.exceptions),
    !(Hsame Field.underwriter); [reflexivity | by_evaluation ..].
Qed.

(** On the values a raw field map can hold, a field is missing when its
    key is absent, its value is [None] or its value is the empty
    string, and present when its value is a non-empty string. *)
Lemma missing_field_value (m : gmap str pyvalue) (k : str) :
  is_field_value (m !! k) = true ->
  missing m k = true
  <-> (m !! k = None \/ m !! k = Some PNone \/ m !! k = Some (PStr [])).
Proof.
  unfold missing, is_field_value, dict_get.
  destruct (m !! k) as [[| | | | [| c s] | |] |]; cbn; intros Hv;
    try discriminate Hv; split; intros Hm; try discriminate Hm; auto.
  destruct Hm as [Hm | [Hm | Hm]]; discriminate Hm.
Qed.

(** C2.  For every field map, [generate_compliance_notes] returns exactly
    the notes of the six-rule table read from top to bottom with every
    rule evaluated: the three missing-field warnings, the
    exceptions-review or else the standard-coverage note, the underwriter
    confirmation, and the final reviewed note, in this order. *)
Theorem generate_compliance_notes_rule_table (m : gmap str pyvalue) :
  generate_compliance_notes m = run_rules compliance_rules m.
Proof.
  unfold compliance_rules, run_rules, warn_if_missing, confirm_if_present,
    either_or, always, missing, present.
  notes_cases m; reflexivity.
Qed.

(** C3.  For every field map, the note list holds exactly one of the
    exceptions-review note and the standard-coverage note: one of them
    is in the list and the other is not, and the two together occur
    once. *)
Theorem exactly_one_exceptions_note (m : gmap str pyvalue) :
  let notes := generate_compliance_notes m in
  ((Note.exceptions_review ∈ notes /\ Note.standard_coverage ∉ notes)
   \/ (Note.standard_coverage ∈ notes /\ Note.exceptions_review ∉ notes))
  /\ length (filter (fun note => note = Note.exceptions_review
                                 \/ note = Note.standard_coverage) notes)
     = 1%nat.
Proof.
  notes_cases m; by_evaluation.
Qed.

(** Replacing a value by another of the same truth value, or removing a
    key whose value is falsy, leaves the notes unchanged. *)
Lemma dict_get_insert (m : gmap str pyvalue) (k k' : str) (v : pyvalue) :
  dict_get (<[k := v]> m) k' = if decide (k = k') then v else dict_get m k'.
Proof.
  unfold dict_get. rewrite lookup_insert.
  destruct (decide (k = k')); reflexivity.
Qed.

Lemma dict_get_delete (m : gmap str pyvalue) (k k' : str) :
  dict_get (delete k m) k' = if decide (k = k') then PNone else dict_get m k'.
Proof.
  unfold dict_get. rewrite lookup_delete.
  destruct (decide (k = k')); reflexivity.
Qed.

(** C9.  The generator tells truthy from falsy values and nothing more:
    its result is a function of the truth values of five fields, so an
    empty string is treated as an absent key and as [None].  An empty
    effective date still gives the missing-effective-date warning, and
    an empty exceptions value gives the standard-coverage note and not
    the exceptions-review note. *)
Theorem empty_string_counts_as_missing (m : gmap str pyvalue) (k : str) :
  (exists table : bool -> bool -> bool -> bool -> bool -> list str,
      forall m' : gmap str pyvalue,
        generate_compliance_notes m'
        = table (truthy (dict_get m' Field.effective_date))
                (truthy (dict_get m' Field.policy_amount))
                (truthy (dict_get m' Field.legal_description))
                (truthy (dict_get m' Field.exceptions))
                (truthy (dict_get m' Field.underwriter)))
  /\ generate_compliance_notes (<[k := PStr []]> m)
     = generate_compliance_notes (delete k m)
  /\ generate_compliance_notes (<[k := PStr []]> m)
     = generate_compliance_notes (<[k := PNone]> m)
  /\ Note.effective_date_missing
     ∈ generate_compliance_notes (<[Field.effective_date := PStr []]> m)
  /\ Note.standard_coverage
     ∈ generate_compliance_notes (<[Field.exceptions := PStr []]> m)
  /\ Note.exceptions_review
     ∉ generate_compliance_notes (<[Field.exceptions := PStr []]> m).
Proof.
  split; [| split; [| split; [| split; [| split]]]].
  - exists (fun a b c d e =>
              generate_compliance_notes
                (<[Field.effective_date := PBool a]>
                   (<[Field.policy_amount := PBool b]>
                      (<[Field.legal_description := PBool c]>
                         (<[Field.exceptions := PBool d]>
                            (<[Field.underwriter := PBool e]> ∅)))))).
    intros m'. apply notes_truthy_ext. intros k' Hk'.
    rewrite !dict_get_insert.
    repeat (apply elem_of_cons in Hk' as [-> | Hk']);
      [by vm_compute ..| by apply elem_of_nil in Hk'].
  - apply notes_truthy_ext. intros k' _.
    rewrite dict_get_insert, dict_get_delete.
    destruct (decide (k = k')); reflexivity.
  - apply notes_truthy_ext. intros k' _.
    rewrite !dict_get_insert.
    destruct (decide (k = k')); reflexivity.
  - unfold generate_compliance_notes, append.
    rewrite (dict_get_insert _ Field.effective_date Field.effective_date),
      decide_True by reflexivity.
    cbn [truthy nonempty negb].
    repeat match goal with
           | |- context [if ?b then _ else _] => destruct b
           end; by_evaluation.
  - unfold generate_compliance_notes, append.
    rewrite (dict_get_insert _ Field.exceptions Field.exceptions),
      decide_True by reflexivity.
    cbn [truthy nonempty].
    repeat match goal with
           | |- context [if ?b then _ else _] => destruct b
           end; by_evaluation.
  - unfold generate_compliance_notes, append.
    rewrite (dict_get_insert _ Field.exceptions Field.exceptions),
      decide_True by reflexivity.
    cbn [truthy nonempty].
    repeat match goal with
           | |- context [if ?b then _ else _] => destruct b
           end; by_evaluation.
Qed.

(** ** Whitespace and the brace search *)

Lemma lstrip_nil_iff (s : str) :
  lstrip s = [] <-> forall c, c ∈ s -> is_space c = true.
Proof.
  induction s as [| c s IH]; simpl.
  - split; [intros _ c Hc; by apply elem_of_nil in Hc | done].
  - destruct (is_space c) eqn:Hc.
    + rewrite IH. split.
      * intros Hs c' [-> | Hc']%elem_of_cons; auto.
      * intros Hs c' Hc'. apply Hs. by right.
    + split; [done |].
      intros Hs. rewrite (Hs c) in Hc; [done | by left].
Qed.

Lemma lstrip_head (s : str) (c : N) (rest : str) :
  lstrip s = c :: rest -> is_space c = false.
Proof.
  induction s as [| x s IH]; simpl; [done |].
  destruct (is_space x) eqn:Hx; [done |].
  by intros [= -> _].
Qed.

(** [text.strip()] is empty exactly when [text] is empty or all
    whitespace. *)
Lemma strip_nil_iff (s : str) :
  strip s = [] <-> forall c, c ∈ s -> is_space c = true.
Proof.
  unfold strip, rstrip. split.
  - intros Hs.
    pose proof (proj1 (lstrip_nil_iff _) Hs) as Hall.
    destruct (lstrip (reverse s)) as [| c r] eqn:Hr.
    + pose proof (proj1 (lstrip_nil_iff _) Hr) as Hrev.
      intros c Hc. apply Hrev. by rewrite elem_of_reverse.
    + exfalso. apply lstrip_head in Hr.
      rewrite Hall in Hr; [done |].
      rewrite elem_of_reverse. by left.
  - intros Hs.
    assert (Hrev : lstrip (reverse s) = []).
    { apply lstrip_nil_iff. intros c Hc. apply Hs.
      by rewrite elem_of_reverse in Hc. }
    by rewrite Hrev.
Qed.

Lemma after_first_open_none (s : str) :
  after_first_open s = None <-> open_brace ∉ s.
Proof.
  induction s as [| c s IH]; cbn [after_first_open upto_last_close].
  - split; [intros _ Hin; by apply elem_of_nil in Hin | done].
  - destruct (N.eqb_spec c open_brace) as [-> | Hne].
    + split; [done | intros Hn; exfalso; apply Hn; by left].
    + rewrite IH, not_elem_of_cons.
      split; [intros Hn; split; [congruence | done] | by intros [_ Hn]].
Qed.

Lemma upto_last_close_none (s : str) :
  upto_last_close s = None <-> close_brace ∉ s.
Proof.
  induction s as [| c s IH]; cbn [after_first_open upto_last_close].
  - split; [intros _ Hin; by apply elem_of_nil in Hin | done].
  - destruct (upto_last_close s) as [inner |].
    + split; [done |]. intros Hn. exfalso.
      apply not_elem_of_cons in Hn as [_ Hn].
      apply IH in Hn. done.
    + destruct (N.eqb_spec c close_brace) as [-> | Hne].
      * split; [done | intros Hn; exfalso; apply Hn; by left].
      * rewrite not_elem_of_cons. rewrite <- IH.
        split; [intros _; split; [congruence | done] | done].
Qed.

(** A reply without an opening brace, or without a closing one, has no
    brace-delimited part. *)
Lemma re_search_braces_no_brace (response : str) :
  open_brace ∉ response \/ close_brace ∉ response ->
  re_search_braces response = None.
Proof.
  unfold re_search_braces. intros [Hopen | Hclose].
  - apply after_first_open_none in Hopen. by rewrite Hopen.
  - destruct (after_first_open response) as [rest |] eqn:Hrest; [| done].
    assert (Hn : close_brace ∉ rest).
    { revert rest Hrest Hclose.
      induction response as [| c s IH]; cbn [after_first_open upto_last_close]; [done |].
      intros rest Hrest Hn. apply not_elem_of_cons in Hn as [_ Hn].
      destruct (c =? open_brace)%N; [by injection Hrest as <- | eauto]. }
    apply upto_last_close_none in Hn. by rewrite Hn.
Qed.

(** The match, when there is one, is a part of the reply that starts at
    the first opening brace and ends at the last closing brace. *)
Lemma re_search_braces_some (response json_match : str) :
  re_search_braces response = Some json_match ->
  exists before inner after,
    response = before ++ (json_match ++ after)
    /\ json_match = open_brace :: (inner ++ [close_brace])
    /\ (open_brace ∉ before)
    /\ (close_brace ∉ after).
Proof.
  unfold re_search_braces.
  destruct (after_first_open response) as [rest |] eqn:Hrest; [| done].
  destruct (upto_last_close rest) as [body |] eqn:Hbody; [| done].
  intros [= <-].
  assert (Hsplit : exists before,
             response = before ++ open_brace :: rest /\ open_brace ∉ before).
  { clear Hbody. revert rest Hrest.
    induction response as [| c s IH]; cbn [after_first_open upto_last_close]; [done |]. intros rest.
    destruct (N.eqb_spec c open_brace) as [-> | Hne].
    - intros [= <-]. exists []. split; [done | apply not_elem_of_nil].
    - intros Hrest. destruct (IH _ Hrest) as (before & -> & Hb).
      exists (c :: before). split; [done |].
      apply not_elem_of_cons. split; [congruence | done]. }
  assert (Hlast : exists inner after,
             rest = body ++ after /\ body = inner ++ [close_brace]
             /\ close_brace ∉ after).
  { clear Hrest Hsplit. revert body Hbody.
    induction rest as [| c s IH]; cbn [after_first_open upto_last_close]; [done |]. intros body.
    destruct (upto_last_close s) as [body' |] eqn:Hs.
    - intros [= <-]. destruct (IH _ eq_refl) as (inner & after & -> & -> & Ha).
      by exists (c :: inner), after.
    - destruct (N.eqb_spec c close_brace) as [-> | Hne]; [| by intros [=]].
      intros [= <-]. exists [], s. split; [done |]. split; [done |].
      by apply upto_last_close_none. }
  destruct Hsplit as (before & -> & Hbefore).
  destruct Hlast as (inner & after & -> & -> & Hafter).
  exists before, inner, after. by repeat split.
Qed.

Lemma after_first_open_suffix (before tail : str) :
  exists prefix,
    after_first_open (before ++ open_brace :: tail) = Some (prefix ++ tail).
Proof.
  induction before as [| c before IH]; cbn [app after_first_open].
  - rewrite N.eqb_refl. by exists [].
  - destruct (c =? open_brace)%N; [| done].
    exists (before ++ [open_brace]). by rewrite <- app_assoc.
Qed.

(** There is a match exactly when some opening brace is followed, at any
    distance, by a closing brace. *)
Lemma re_search_braces_none_iff (response : str) :
  re_search_braces response = None
  <-> ~ exists before inner after,
        response = before ++ open_brace :: (inner ++ close_brace :: after).
Proof.
  split.
  - intros Hnone (before & inner & after & ->).
    unfold re_search_braces in Hnone.
    destruct (after_first_open_suffix before (inner ++ close_brace :: after))
      as [prefix Hrest].
    rewrite Hrest in Hnone.
    destruct (upto_last_close _) as [body |] eqn:Hbody; [done |].
    apply upto_last_close_none in Hbody. apply Hbody.
    rewrite !elem_of_app. right. right. by left.
  - intros Hno.
    destruct (re_search_braces response) as [json_match |] eqn:Hmatch;
      [| done].
    destruct (re_search_braces_some _ _ Hmatch)
      as (before & inner & after & -> & -> & _ & _).
    exfalso. apply Hno. exists before, inner, after.
    cbn [app]. by rewrite <- app_assoc.
Qed.

(** ** The reference decoder on examples *)

Example loads_object :
  Json.loads (Fixture.quoted "{'a': [1, 2.5e3, true, null], 'b': {}, 'a': 'x'}")
  = Some (PDict (<[lit "a" := PStr (lit "x")]>
                   (<[lit "b" := PDict ∅]> ∅))).
Proof. vm_compute. reflexivity. Qed.

Example loads_numbers :
  Json.loads (lit " [0, -12, 1.50, 1e-2, -0.0, NaN, -Infinity] ")
  = Some (PList [PInt 0; PInt (-12); PFloat (FDec 150 (-2));
                 PFloat (FDec 1 (-2)); PFloat (FDec 0 (-1));
                 PFloat FNaN; PFloat (FInf true)]).
Proof. vm_compute. reflexivity. Qed.

Example loads_escapes :
  Json.loads (Fixture.quoted "'a\n\u00e9\ud83d\udccb\ud83d'")
  = Some (PStr [97; 10; 0xE9; 0x1F4CB; 0xD83D]%N).
Proof. vm_compute. reflexivity. Qed.

Example loads_rejects :
  Json.loads (lit "") = None
  /\ Json.loads (lit "{not json}") = None
  /\ Json.loads (lit "[1,]") = None
  /\ Json.loads (lit "01") = None
  /\ Json.loads (lit "1.") = None
  /\ Json.loads (Fixture.quoted "{'a': 1} trailing") = None
  /\ Json.loads (Fixture.quoted "{'a' 1}") = None
  /\ Json.loads (Fixture.quoted "'unterminated") = None
  /\ Json.loads (lit "{'effective_date': None}") = None.
Proof. vm_compute. repeat split. Qed.

Example sample_reply_decodes :
  Json.loads Fixture.sample_reply = Some (PDict Fixture.sample_fields).
Proof. vm_compute. reflexivity. Qed.

Example python_reply_match :
  Json.loads Fixture.python_reply = None
  /\ re_search_braces Fixture.python_reply
     = Some (lit "{'effective_date': None}")
  /\ re_search_braces (lit "} no match {") = None
  /\ re_search_braces (lit "a {b} c } d { e") = Some (lit "{b} c }").
Proof. vm_compute. repeat split. Qed.

(** Both decoding failures on the Python-literal reply are failures of
    the grammar at the first character looked at, whatever the bound on
    nested calls. *)
Example python_reply_never_decodes (fuel : nat) :
  Json.scan_once fuel (Json.skip_ws Fixture.python_reply) = None
  /\ Json.scan_once fuel (Json.skip_ws (lit "{'effective_date': None}"))
     = None.
Proof. destruct fuel as [| fuel]; split; reflexivity. Qed.

(** A float that underflows to zero is falsy, the smallest subnormal is
    not. *)
Example truthy_floats :
  truthy (PFloat (FDec 1 (-400))) = false
  /\ truthy (PFloat (FDec 2 (-324))) = false
  /\ truthy (PFloat (FDec 5 (-324))) = true
  /\ truthy (PFloat (FDec 0 5)) = false.
Proof. vm_compute. repeat split. Qed.

(** ** The request pipeline *)

(** Unfold the operations of the request monad. *)
Ltac run_monad :=
  unfold try_except, mbind, M_bind, mret, M_ret, raise, lift, perform, draw.

Lemma calls_since_refl (w : world) : calls_since w w = [].
Proof. unfold calls_since. apply drop_all. Qed.

Lemma calls_since_app (w w' : world) (cs : list call) :
  w'.(calls) = w.(calls) ++ cs -> calls_since w w' = cs.
Proof. unfold calls_since. intros ->. apply drop_app_length. Qed.

(** The error messages of the handler are pairwise different. *)
Lemma size_error_distinct :
  type_error <> size_error /\ empty_text_error <> size_error
  /\ pdf_error <> size_error /\ image_error <> size_error
  /\ internal_error <> size_error
  /\ forall message, http 500 message <> size_error.
Proof.
  repeat split; unfold not; intros;
    match goal with
    | Heq : _ = size_error |- _ => vm_compute in Heq; discriminate Heq
    end.
Qed.

Section PipelineProperties.

Context `{Services}.

(** The pages loop calls the extraction of each page in turn, adds the
    page's text and a newline to the text so far, and stops at the first
    page whose extraction raises. *)
Lemma pages_loop_run (pages : list Page) (text : str) (w : world) :
  exists k r,
    pages_loop pages text w
    = ({| calls := w.(calls) ++ replicate k CallExtractText;
          drawn := w.(drawn) |}, r)
    /\ (k <= length pages)%nat.
Proof.
  revert text w. induction pages as [| page pages IH]; intros text w.
  - exists 0%nat, (inr text). cbn. rewrite app_nil_r. by destruct w.
  - cbn [pages_loop]. run_monad.
    destruct (extract_text page) as [e | page_text].
    + exists 1%nat, (inl e). split; [done | cbn; lia].
    + destruct (IH (text ++ (page_text ++ [newline]))
                  (logged CallExtractText w)) as (k & r & -> & Hk).
      exists (S k), r. cbn [logged calls drawn replicate length].
      rewrite <- app_assoc. split; [done | lia].
Qed.

Lemma pages_loop_texts
    (pages : list Page) (texts : list str) (text : str) (w : world) :
  Forall2 (fun page page_text => extract_text page = inr page_text)
          pages texts ->
  pages_loop pages text w
  = ({| calls := w.(calls) ++ replicate (length pages) CallExtractText;
        drawn := w.(drawn) |},
     inr (text ++ concat ((fun page_text => page_text ++ [newline]) <$> texts))).
Proof.
  intros Hall. revert text w.
  induction Hall as [| page page_text pages texts Hpage _ IH]; intros text w.
  - cbn. rewrite !app_nil_r. by destruct w.
  - cbn [pages_loop]. run_monad. rewrite Hpage, IH.
    cbn [logged calls drawn replicate length fmap list_fmap concat].
    by rewrite <- !app_assoc.
Qed.

Lemma pages_loop_raises
    (pages : list Page) (page : Page) (e : exn) (text : str) (w : world) :
  page ∈ pages -> extract_text page = inl e ->
  exists w' e', pages_loop pages text w = (w', inl e').
Proof.
  intros Hin Hpage. revert text w.
  induction pages as [| p pages IH]; intros text w.
  - by apply elem_of_nil in Hin.
  - cbn [pages_loop]. run_monad.
    destruct (extract_text p) as [e1 | t1] eqn:Hp.
    + by eexists _, e1.
    + apply elem_of_cons in Hin as [-> | Hin]; [congruence | by apply IH].
Qed.

(** [extract_text_from_pdf] calls the reader, then the pages loop, and
    turns every exception into the PDF extraction error. *)
Lemma extract_text_from_pdf_run (pdf_bytes : bytes) (w : world) :
  extract_text_from_pdf pdf_bytes w
  = match PdfReader pdf_bytes with
    | inl _ => (logged (CallPdfReader pdf_bytes) w, inl pdf_error)
    | inr pages =>
        match pages_loop pages [] (logged (CallPdfReader pdf_bytes) w) with
        | (w', inl _) => (w', inl pdf_error)
        | (w', inr text) => (w', inr text)
        end
    end.
Proof.
  unfold extract_text_from_pdf. run_monad.
  destruct (PdfReader pdf_bytes) as [e | pages]; [done |].
  by destruct (pages_loop pages [] _) as [w' [e | text]].
Qed.

Lemma extraction_call_not_send_message (c : call) :
  is_extraction_call c = true -> is_send_message c = false.
Proof. by destruct c. Qed.

(** [extract_text_from_pdf] makes extraction calls only, the first of
    them to the reader. *)
Lemma extract_text_from_pdf_calls (pdf_bytes : bytes) (w : world) :
  exists cs r,
    extract_text_from_pdf pdf_bytes w
    = ({| calls := w.(calls) ++ CallPdfReader pdf_bytes :: cs;
          drawn := w.(drawn) |}, r)
    /\ Forall (fun c => is_extraction_call c = true) cs
    /\ (forall e, r = inl e -> e = pdf_error).
Proof.
  rewrite extract_text_from_pdf_run.
  destruct (PdfReader pdf_bytes) as [e | pages].
  { exists [], (inl pdf_error). by repeat split; [| intros ? [= <-]]. }
  destruct (pages_loop_run pages [] (logged (CallPdfReader pdf_bytes) w))
    as (k & r & -> & _).
  cbn [logged calls drawn]. rewrite <- app_assoc. cbn [app].
  exists (replicate k CallExtractText),
    (match r with inl _ => inl pdf_error | inr text => inr text end).
  split; [by destruct r |].
  split; [by apply Forall_replicate |].
  destruct r; [by intros ? [= <-] | done].
Qed.

(** [extract_text_from_image] calls PIL to open and, for an image that
    is not RGB, to convert the image, then the recogniser; it turns
    every exception into the image extraction error. *)
Lemma extract_text_from_image_calls (image_bytes : bytes) (w : world) :
  exists cs r,
    extract_text_from_image image_bytes w
    = ({| calls := w.(calls) ++ CallImageOpen image_bytes :: cs;
          drawn := w.(drawn) |}, r)
    /\ Forall (fun c => is_extraction_call c = true) cs
    /\ (forall e, r = inl e -> e = image_error).
Proof.
  unfold extract_text_from_image. run_monad. unfold logged.
  destruct (Image_open image_bytes) as [e | image];
    [| destruct (bool_decide (Image_mode image ≠ lit "RGB"));
       [destruct (Image_convert image (lit "RGB")) as [e | image'];
        [| destruct (image_to_string image') as [e | text]]
       | destruct (image_to_string image) as [e | text]]];
    cbn [calls drawn]; rewrite <- ?app_assoc; cbn [app];
    eexists _, _;
    (split; [reflexivity |]);
    (split; [repeat constructor |]);
    try (by intros ? [= <-]); done.
Qed.

(** Text extraction starts with a call to the extractor of the declared
    type on the bytes read, makes extraction calls only, draws nothing
    and fails only with an extraction error. *)
Lemma extract_text_by_type_run (file : UploadFile) (b : bytes) (w : world) :
  exists cs r,
    extract_text_by_type file b w
    = ({| calls := w.(calls) ++ cs; drawn := w.(drawn) |}, r)
    /\ (exists first rest,
           cs = first :: rest
           /\ (first = CallPdfReader b \/ first = CallImageOpen b))
    /\ (forall c, c ∈ cs -> is_send_message c = false)
    /\ (forall e, r = inl e -> e = pdf_error \/ e = image_error).
Proof.
  unfold extract_text_by_type.
  destruct (bool_decide (content_type file = Some (lit "application/pdf"))).
  - destruct (extract_text_from_pdf_calls b w) as (cs & r & -> & Hcs & Hr).
    exists (CallPdfReader b :: cs), r. split; [done |].
    split; [by eexists _, _; split; [| left] |].
    split; [| by left; apply Hr].
    intros c [-> | Hc]%elem_of_cons; [done |].
    apply extraction_call_not_send_message.
    by apply (proj1 (Forall_forall _ _) Hcs).
  - destruct (extract_text_from_image_calls b w) as (cs & r & -> & Hcs & Hr).
    exists (CallImageOpen b :: cs), r. split; [done |].
    split; [by eexists _, _; split; [| right] |].
    split; [| by right; apply Hr].
    intros c [-> | Hc]%elem_of_cons; [done |].
    apply extraction_call_not_send_message.
    by apply (proj1 (Forall_forall _ _) Hcs).
Qed.

(** *** The chat exchange *)

(** The inner [try] leaves the world alone; its outcome is read off the
    two decoding attempts. *)
Lemma parse_response_run (response : str) (w : world) :
  parse_response response w
  = (w,
     match json_loads response with
     | inr result => inr result
     | inl (EJSONDecode _) =>
         match re_search_braces response with
         | Some json_match => json_loads json_match
         | None => inr (PDict empty_result)
         end
     | inl e => inl e
     end).
Proof.
  unfold parse_response. run_monad.
  destruct (json_loads response) as [[e | msg | msg] | result]; try done.
  destruct (re_search_braces response) as [json_match |]; [| done].
  by destruct (json_loads json_match).
Qed.

(** A reply that is not JSON and has no brace-delimited part gives the
    empty result. *)
Lemma parse_response_no_braces (response msg : str) (w : world) :
  json_loads response = inl (EJSONDecode msg) ->
  re_search_braces response = None ->
  parse_response response w = (w, inr (PDict empty_result)).
Proof. intros Hdirect Hnone. by rewrite parse_response_run, Hdirect, Hnone. Qed.

(** The whole exchange: without a key nothing is sent; with a key, one
    message is sent, made of the prompt and the first [TEXT_LIMIT]
    characters of the text; every exception becomes a 500 error. *)
Lemma analyze_document_with_openai_run
    (extracted_text session_id : str) (w : world) :
  analyze_document_with_openai extracted_text session_id w
  = match environ !! lit "OPENAI_API_KEY" with
    | Some key =>
        if nonempty key then
          let chat :=
            with_model (new_LlmChat key session_id SYSTEM_MESSAGE)
                       (lit "openai") (lit "gpt-4o-mini") in
          let user_message :=
            {| text := USER_PROMPT ++ slice_to TEXT_LIMIT extracted_text |} in
          (logged (CallSendMessage chat user_message) w,
           match send_message chat user_message with
           | inl e =>
               inl (http 500 (lit "Failed to analyze document: " ++ exn_str e))
           | inr response =>
               match snd (parse_response response w) with
               | inl e =>
                   inl (http 500
                          (lit "Failed to analyze document: " ++ exn_str e))
               | inr result => inr result
               end
           end)
        else
          (w, inl (http 500 (lit "Failed to analyze document: "
                             ++ exn_str key_error)))
    | None =>
        (w, inl (http 500 (lit "Failed to analyze document: "
                           ++ exn_str key_error)))
    end.
Proof.
  unfold analyze_document_with_openai.
  destruct (environ !! lit "OPENAI_API_KEY") as [key |]; [| done].
  destruct (nonempty key); [| done].
  cbv zeta. run_monad.
  destruct (send_message _ _) as [e | response]; [done |].
  rewrite !parse_response_run. cbn [snd].
  destruct (json_loads response) as [[e | msg | msg] | result]; try done.
  destruct (re_search_braces response) as [json_match |]; [| done].
  by destruct (json_loads json_match).
Qed.

(** C8.  With a key configured, the one message sent to the chat
    service is the prompt followed by the first 4000 characters of the
    extracted text, which are at most 4000 and a prefix of the text; the
    outcome of the exchange is the one for the text cut to its first
    4000 characters, so a longer text raises nothing of its own. *)
Theorem user_text_limited_to_4000
    (extracted_text session_id key : str) (w : world) :
  environ !! lit "OPENAI_API_KEY" = Some key ->
  nonempty key = true ->
  let outcome := analyze_document_with_openai extracted_text session_id w in
  (exists chat,
      calls_since w (fst outcome)
      = [CallSendMessage chat
           {| text := USER_PROMPT ++ take 4000 extracted_text |}])
  /\ (length (take 4000 extracted_text) <= 4000)%nat
  /\ take 4000 extracted_text `prefix_of` extracted_text
  /\ analyze_document_with_openai (take 4000 extracted_text) session_id w
     = outcome.
Proof.
  intros Hkey Hnonempty outcome. subst outcome.
  rewrite !analyze_document_with_openai_run, Hkey, Hnonempty. cbv zeta.
  unfold slice_to, TEXT_LIMIT. cbn [fst].
  split; [| split; [| split]].
  - eexists. by apply calls_since_app.
  - rewrite length_take. apply Nat.le_min_l.
  - exists (drop 4000 extracted_text). by rewrite take_drop.
  - by rewrite take_take, Nat.min_id.
Qed.

(** C1, as the code has it.  When the reply is not JSON and the text
    between its first opening and last closing brace is not JSON either,
    the second decoding error leaves the inner handler and the exchange
    ends in a 500 error; the empty result is returned only when the
    reply has no brace-delimited part ([parse_response_no_braces]). *)
Theorem unparsable_match_raises
    (extracted_text session_id key response msg json_match : str)
    (e : exn) (w : world) :
  let chat :=
    with_model (new_LlmChat key session_id SYSTEM_MESSAGE)
               (lit "openai") (lit "gpt-4o-mini") in
  let user_message :=
    {| text := USER_PROMPT ++ slice_to TEXT_LIMIT extracted_text |} in
  environ !! lit "OPENAI_API_KEY" = Some key ->
  nonempty key = true ->
  send_message chat user_message = inr response ->
  json_loads response = inl (EJSONDecode msg) ->
  re_search_braces response = Some json_match ->
  json_loads json_match = inl e ->
  analyze_document_with_openai extracted_text session_id w
  = (logged (CallSendMessage chat user_message) w,
     inl (http 500 (lit "Failed to analyze document: " ++ exn_str e))).
Proof.
  intros chat user_message Hkey Hnonempty Hreply Hdirect Hmatch Hsecond.
  rewrite analyze_document_with_openai_run, Hkey, Hnonempty. cbv zeta.
  fold chat user_message. rewrite Hreply, parse_response_run.
  by rewrite Hdirect, Hmatch, Hsecond.
Qed.

(** The exchange only adds calls, and fails only with a 500 error. *)
Lemma analyze_document_with_openai_outcome
    (extracted_text session_id : str) (w w' : world) (r : exn + pyvalue) :
  analyze_document_with_openai extracted_text session_id w = (w', r) ->
  (exists cs, w'.(calls) = w.(calls) ++ cs)
  /\ (forall e, r = inl e -> exists message, e = http 500 message).
Proof.
  rewrite analyze_document_with_openai_run.
  destruct (environ !! lit "OPENAI_API_KEY") as [key |].
  - destruct (nonempty key).
    + cbv zeta. intros [= <- <-]. split; [by eexists |].
      intros e0.
      destruct (send_message _ _) as [e | response];
        [by intros [= <-]; eexists |].
      destruct (snd (parse_response response w)) as [e | result];
        [by intros [= <-]; eexists | done].
    + intros [= <- <-]. split; [by exists []; rewrite app_nil_r |].
      by intros e [= <-]; eexists.
  - intros [= <- <-]. split; [by exists []; rewrite app_nil_r |].
    by intros e [= <-]; eexists.
Qed.

(** *** The handler, stage by stage *)

Lemma size_too_large_iff (file : UploadFile) :
  size_too_large file = true
  <-> exists n, file.(size) = Some n /\ n <> 0%Z /\ (MAX_FILE_SIZE < n)%Z.
Proof.
  unfold size_too_large. destruct (size file) as [n |].
  - rewrite andb_true_iff, negb_true_iff, Z.eqb_neq, Z.ltb_lt. split.
    + intros [Hn Hlt]. by exists n.
    + by intros (n' & [= <-] & Hn & Hlt).
  - split; [done | by intros (n & Hn & _)].
Qed.

Lemma analyze_document_size (file : UploadFile) (w : world) :
  size_too_large file = true ->
  analyze_document file w = (w, inl size_error).
Proof.
  intros Hsize. unfold analyze_document. run_monad. by rewrite Hsize.
Qed.

Lemma analyze_document_type (file : UploadFile) (w : world) :
  size_too_large file = false ->
  type_allowed file = false ->
  analyze_document file w = (w, inl type_error).
Proof.
  intros Hsize Htype. unfold analyze_document. run_monad.
  by rewrite Hsize, Htype.
Qed.

Lemma analyze_document_extraction_fails
    (file : UploadFile) (w w1 : world) (e : exn) :
  size_too_large file = false ->
  type_allowed file = true ->
  extract_text_by_type file file.(content) (logged CallRead w) = (w1, inl e) ->
  analyze_document file w = (w1, inl e).
Proof.
  intros Hsize Htype Hextract.
  destruct (extract_text_by_type_run file file.(content) (logged CallRead w))
    as (cs & r & Hrun & _ & _ & Herr).
  rewrite Hextract in Hrun. injection Hrun as -> <-.
  unfold analyze_document. run_monad.
  rewrite Hsize, Htype. cbn [negb]. rewrite Hextract.
  by destruct (Herr e eq_refl) as [-> | ->].
Qed.

Lemma analyze_document_empty_text
    (file : UploadFile) (w w1 : world) (extracted_text : str) :
  size_too_large file = false ->
  type_allowed file = true ->
  extract_text_by_type file file.(content) (logged CallRead w)
  = (w1, inr extracted_text) ->
  nonempty (strip extracted_text) = false ->
  analyze_document file w = (w1, inl empty_text_error).
Proof.
  intros Hsize Htype Hextract Hempty.
  unfold analyze_document. run_monad.
  by rewrite Hsize, Htype; cbn [negb]; rewrite Hextract, Hempty.
Qed.

(** The world in which the exchange starts: the session identifier has
    been drawn. *)
Lemma analyze_document_exchange_fails
    (file : UploadFile) (w w1 w2 : world) (extracted_text : str) (e : exn) :
  size_too_large file = false ->
  type_allowed file = true ->
  extract_text_by_type file file.(content) (logged CallRead w)
  = (w1, inr extracted_text) ->
  nonempty (strip extracted_text) = true ->
  analyze_document_with_openai extracted_text (uuid4 w1.(drawn))
    {| calls := w1.(calls); drawn := S w1.(drawn) |} = (w2, inl e) ->
  analyze_document file w = (w2, inl e).
Proof.
  intros Hsize Htype Hextract Htext Hexchange.
  destruct (analyze_document_with_openai_outcome _ _ _ _ _ Hexchange)
    as [_ Herr].
  destruct (Herr e eq_refl) as [message ->].
  unfold analyze_document. run_monad.
  by rewrite Hsize, Htype; cbn [negb]; rewrite Hextract, Htext; cbn [negb];
    rewrite Hexchange.
Qed.

Lemma analyze_document_not_a_dict
    (file : UploadFile) (w w1 w2 : world) (extracted_text : str)
    (analysis_result : pyvalue) :
  size_too_large file = false ->
  type_allowed file = true ->
  extract_text_by_type file file.(content) (logged CallRead w)
  = (w1, inr extracted_text) ->
  nonempty (strip extracted_text) = true ->
  analyze_document_with_openai extracted_text (uuid4 w1.(drawn))
    {| calls := w1.(calls); drawn := S w1.(drawn) |}
  = (w2, inr analysis_result) ->
  (forall d, analysis_result <> PDict d) ->
  analyze_document file w = (w2, inl internal_error).
Proof.
  intros Hsize Htype Hextract Htext Hexchange Hshape.
  unfold analyze_document. run_monad.
  rewrite Hsize, Htype; cbn [negb]; rewrite Hextract, Htext; cbn [negb];
    rewrite Hexchange.
  destruct analysis_result; try done. by destruct (Hshape d).
Qed.

Lemma optional_str_error (v : pyvalue) (e : exn) :
  optional_str v = inl e -> e = EOther (lit "ValidationError").
Proof.
  unfold optional_str.
  destruct v; try done; by destruct (coerce_str _); intros [= <-].
Qed.

(** With a [dict] in hand the handler makes no further call; it draws
    the identifier and the timestamp and either returns the record or
    fails with the internal error. *)
Lemma analyze_document_dict
    (file : UploadFile) (w w1 w2 : world) (extracted_text : str)
    (d : gmap str pyvalue) :
  size_too_large file = false ->
  type_allowed file = true ->
  extract_text_by_type file file.(content) (logged CallRead w)
  = (w1, inr extracted_text) ->
  nonempty (strip extracted_text) = true ->
  analyze_document_with_openai extracted_text (uuid4 w1.(drawn))
    {| calls := w1.(calls); drawn := S w1.(drawn) |} = (w2, inr (PDict d)) ->
  let w3 := {| calls := w2.(calls); drawn := S (S w2.(drawn)) |} in
  analyze_document file w
  = (w3,
     match optional_str (dict_get d Field.effective_date),
           optional_str (dict_get d Field.insured_party),
           optional_str (dict_get d Field.underwriter),
           optional_str (dict_get d Field.legal_description),
           optional_str (dict_get d Field.exceptions),
           optional_str (dict_get d Field.policy_amount) with
     | inr f1, inr f2, inr f3, inr f4, inr f5, inr f6 =>
         inr {| id := uuid4 w2.(drawn);
                effective_date := f1;
                insured_party := f2;
                underwriter := f3;
                legal_description := f4;
                exceptions := f5;
                policy_amount := f6;
                compliance_notes := generate_compliance_notes d;
                processing_status := lit "completed";
                timestamp := utcnow (S w2.(drawn)) |}
     | _, _, _, _, _, _ => inl internal_error
     end).
Proof.
  intros Hsize Htype Hextract Htext Hexchange w3. subst w3.
  unfold analyze_document, new_DocumentAnalysisResult. run_monad.
  rewrite Hsize, Htype; cbn [negb]; rewrite Hextract, Htext; cbn [negb];
    rewrite Hexchange.
  cbn [py_generate_compliance_notes py_get calls drawn].
  destruct (optional_str (dict_get d Field.effective_date)) as [e1 | f1] eqn:H1;
    [by rewrite (optional_str_error _ _ H1) |].
  destruct (optional_str (dict_get d Field.insured_party)) as [e2 | f2] eqn:H2;
    [by rewrite (optional_str_error _ _ H2) |].
  destruct (optional_str (dict_get d Field.underwriter)) as [e3 | f3] eqn:H3;
    [by rewrite (optional_str_error _ _ H3) |].
  destruct (optional_str (dict_get d Field.legal_description)) as [e4 | f4] eqn:H4;
    [by rewrite (optional_str_error _ _ H4) |].
  destruct (optional_str (dict_get d Field.exceptions)) as [e5 | f5] eqn:H5;
    [by rewrite (optional_str_error _ _ H5) |].
  destruct (optional_str (dict_get d Field.policy_amount)) as [e6 | f6] eqn:H6;
    [by rewrite (optional_str_error _ _ H6) |].
  done.
Qed.

(** Past the size and type checks the handler reads the upload and
    calls the extractor of the declared type on what it read; whatever
    happens next, the outcome is not the size error. *)
Lemma analyze_document_proceeds (file : UploadFile) (w : world) :
  size_too_large file = false ->
  type_allowed file = true ->
  exists w' r first rest,
    analyze_document file w = (w', r)
    /\ calls_since w w' = CallRead :: first :: rest
    /\ (first = CallPdfReader file.(content)
        \/ first = CallImageOpen file.(content))
    /\ r <> inl size_error.
Proof.
  intros Hsize Htype.
  destruct size_error_distinct as (_ & Hempty & Hpdf & Himage & Hinternal & H500).
  destruct (extract_text_by_type_run file file.(content) (logged CallRead w))
    as (cs & r1 & Hrun & (first & rest & -> & Hfirst) & _ & Herr).
  cbn [logged calls drawn] in Hrun. rewrite <- app_assoc in Hrun.
  cbn [app] in Hrun.
  set (w1 := {| calls := calls w ++ CallRead :: first :: rest;
                drawn := drawn w |}) in Hrun.
  destruct r1 as [e | extracted_text].
  { exists w1, (inl e), first, rest.
    split; [by apply analyze_document_extraction_fails |].
    split; [by apply calls_since_app |]. split; [done |].
    destruct (Herr e eq_refl) as [-> | ->]; congruence. }
  destruct (nonempty (strip extracted_text)) eqn:Htext; cycle 1.
  { exists w1, (inl empty_text_error), first, rest.
    split; [by eapply analyze_document_empty_text |].
    split; [by apply calls_since_app |]. split; [done | congruence]. }
  destruct (analyze_document_with_openai extracted_text (uuid4 w1.(drawn))
              {| calls := w1.(calls); drawn := S w1.(drawn) |})
    as [w2 r2] eqn:Hexchange.
  destruct (analyze_document_with_openai_outcome _ _ _ _ _ Hexchange)
    as [[cs2 Hcalls] Herr2].
  unfold w1 in Hcalls. cbn [calls] in Hcalls.
  rewrite <- app_assoc in Hcalls. cbn [app] in Hcalls.
  destruct r2 as [e | analysis_result].
  { exists w2, (inl e), first, (rest ++ cs2).
    split; [by eapply analyze_document_exchange_fails |].
    split; [by apply calls_since_app |]. split; [done |].
    destruct (Herr2 e eq_refl) as [message ->].
    pose proof (H500 message). congruence. }
  assert (Hdict : (exists d, analysis_result = PDict d)
                  \/ forall d, analysis_result <> PDict d).
  { destruct analysis_result; try (by right); left; by eexists. }
  destruct Hdict as [[d ->] | Hshape].
  - eexists _, _, first, (rest ++ cs2).
    split; [by eapply analyze_document_dict |].
    split; [by apply calls_since_app |]. split; [done |].
    repeat case_match; congruence.
  - exists w2, (inl internal_error), first, (rest ++ cs2).
    split; [by eapply analyze_document_not_a_dict |].
    split; [by apply calls_since_app |]. split; [done | congruence].
Qed.

(** C5.  An upload whose declared size exceeds 10 MiB is rejected with
    the size error, and the world is the one the request started in: no
    read, no text extraction and no call to the chat service has been
    made. *)
Theorem oversized_upload_rejected_before_any_call
    (file : UploadFile) (n : Z) (w : world) :
  file.(size) = Some n ->
  (10 * 1024 * 1024 < n)%Z ->
  analyze_document file w = (w, inl size_error)
  /\ calls_since w (fst (analyze_document file w)) = [].
Proof.
  intros Hsize Hlarge.
  assert (Hcheck : size_too_large file = true).
  { apply size_too_large_iff. exists n. unfold MAX_FILE_SIZE.
    split; [done |]. split; [intros -> |]; done. }
  rewrite (analyze_document_size _ _ Hcheck).
  split; [done | apply calls_since_refl].
Qed.

(** C6.  When the size and type checks pass and the extracted text is
    empty or made of whitespace only, the handler rejects the request
    with the empty-text error, in the world text extraction left: no
    call to the chat service is among the calls of the request. *)
Theorem blank_text_rejected_without_exchange
    (file : UploadFile) (w w1 : world) (extracted_text : str) :
  size_too_large file = false ->
  type_allowed file = true ->
  extract_text_by_type file file.(content) (logged CallRead w)
  = (w1, inr extracted_text) ->
  (forall c, c ∈ extracted_text -> is_space c = true) ->
  analyze_document file w = (w1, inl empty_text_error)
  /\ forall c, c ∈ calls_since w w1 -> is_send_message c = false.
Proof.
  intros Hsize Htype Hextract Hblank.
  apply strip_nil_iff in Hblank.
  split.
  - eapply analyze_document_empty_text; try done. by rewrite Hblank.
  - destruct (extract_text_by_type_run file file.(content) (logged CallRead w))
      as (cs & r & Hrun & _ & Hcs & _).
    rewrite Hextract in Hrun. injection Hrun as -> _.
    cbn [logged calls]. rewrite <- app_assoc.
    rewrite (calls_since_app w _ ([CallRead] ++ cs)) by done.
    intros c [-> | Hc]%elem_of_cons; [done | by apply Hcs].
Qed.

(** C10.  The size error is returned exactly when a size is declared,
    is not zero and exceeds 10 MiB.  With no declared size, or with a
    declared size of zero, the handler goes on whatever the length of
    the payload: it rejects a type outside the allow-list with the type
    error, and otherwise reads the upload and calls the extractor of
    the declared type on the bytes read. *)
Theorem size_check_needs_declared_size (file : UploadFile) (w : world) :
  ((exists w', analyze_document file w = (w', inl size_error))
   <-> exists n, file.(size) = Some n /\ n <> 0%Z /\ (10 * 1024 * 1024 < n)%Z)
  /\ (file.(size) = None \/ file.(size) = Some 0%Z ->
      (type_allowed file = false ->
       analyze_document file w = (w, inl type_error))
      /\ (type_allowed file = true ->
          exists w' r first rest,
            analyze_document file w = (w', r)
            /\ calls_since w w' = CallRead :: first :: rest
            /\ (first = CallPdfReader file.(content)
                \/ first = CallImageOpen file.(content))
            /\ r <> inl size_error)).
Proof.
  split.
  - change (10 * 1024 * 1024)%Z with MAX_FILE_SIZE.
    rewrite <- size_too_large_iff. split.
    + intros [w' Hrun].
      destruct (size_too_large file) eqn:Hsize; [done |]. exfalso.
      destruct (type_allowed file) eqn:Htype.
      * destruct (analyze_document_proceeds file w Hsize Htype)
          as (w'' & r & _ & _ & Hrun' & _ & _ & Hr).
        rewrite Hrun in Hrun'. injection Hrun' as _ <-. done.
      * rewrite (analyze_document_type _ _ Hsize Htype) in Hrun.
        injection Hrun as _ Heq.
        by destruct size_error_distinct as (Hty & _); apply Hty.
    + intros Hsize. exists w. by apply analyze_document_size.
  - intros Hdeclared.
    assert (Hsize : size_too_large file = false).
    { unfold size_too_large. by destruct Hdeclared as [-> | ->]. }
    split; intros Htype.
    + by apply analyze_document_type.
    + by apply analyze_document_proceeds.
Qed.

Lemma optional_str_slot (d : gmap str pyvalue) (k : str) :
  is_field_value (d !! k) = true ->
  optional_str (dict_get d k) = inr (slot d k).
Proof.
  unfold optional_str, dict_get, slot, is_field_value.
  destruct (d !! k) as [[] |]; done.
Qed.

Lemma generate_compliance_notes_last (d : gmap str pyvalue) :
  last (generate_compliance_notes d) = Some Note.reviewed.
Proof. unfold generate_compliance_notes, append. apply last_snoc. Qed.

(** C4.  When the size, type and empty-text checks pass and the chat
    exchange returns a field map whose six entries are each absent,
    [None] or a string, the handler returns a record whose six slots are
    those entries ([None] for an absent key), whose status is
    ["completed"], and whose notes are the generated ones: a non-empty
    list ending in the reviewed note. *)
Theorem analyze_document_completed
    (file : UploadFile) (w w1 w2 : world) (extracted_text : str)
    (m : gmap str pyvalue) :
  size_too_large file = false ->
  type_allowed file = true ->
  extract_text_by_type file file.(content) (logged CallRead w)
  = (w1, inr extracted_text) ->
  nonempty (strip extracted_text) = true ->
  analyze_document_with_openai extracted_text (uuid4 w1.(drawn))
    {| calls := w1.(calls); drawn := S w1.(drawn) |} = (w2, inr (PDict m)) ->
  is_raw_field_map m = true ->
  exists result w3,
    analyze_document file w = (w3, inr result)
    /\ result.(effective_date) = slot m Field.effective_date
    /\ result.(insured_party) = slot m Field.insured_party
    /\ result.(underwriter) = slot m Field.underwriter
    /\ result.(legal_description) = slot m Field.legal_description
    /\ result.(exceptions) = slot m Field.exceptions
    /\ result.(policy_amount) = slot m Field.policy_amount
    /\ result.(processing_status) = lit "completed"
    /\ result.(compliance_notes) = generate_compliance_notes m
    /\ result.(compliance_notes) <> []
    /\ last result.(compliance_notes) = Some Note.reviewed.
Proof.
  intros Hsize Htype Hextract Htext Hexchange Hmap.
  unfold is_raw_field_map, Field.all in Hmap. cbn [forallb] in Hmap.
  repeat match type of Hmap with
         | (_ && _)%bool = true =>
             apply andb_true_iff in Hmap as [?Hslot Hmap]
         end.
  rewrite (analyze_document_dict _ _ _ _ _ _ Hsize Htype Hextract Htext
             Hexchange).
  rewrite !optional_str_slot by done.
  eexists _, _. split; [reflexivity |]. cbn.
  repeat split; try done.
  - pose proof (generate_compliance_notes_last m) as Hlast.
    by destruct (generate_compliance_notes m).
  - apply generate_compliance_notes_last.
Qed.

(** C7, as the code has it.  [extract_text_from_pdf] calls the reader
    and then the text extraction of each page.  When the reader raises,
    or the extraction of any page raises, it fails with the PDF
    extraction error.  When the reader returns pages that all give their
    text, it returns these texts in page order, each followed by a
    newline; for a document of zero pages this is the empty string, not
    an error. *)
Theorem extract_text_from_pdf_outcome (pdf_bytes : bytes) (w : world) :
  (forall e, PdfReader pdf_bytes = inl e ->
     extract_text_from_pdf pdf_bytes w
     = (logged (CallPdfReader pdf_bytes) w, inl pdf_error))
  /\ (forall pages page e,
        PdfReader pdf_bytes = inr pages ->
        page ∈ pages -> extract_text page = inl e ->
        snd (extract_text_from_pdf pdf_bytes w) = inl pdf_error)
  /\ (forall pages texts,
        PdfReader pdf_bytes = inr pages ->
        Forall2 (fun page page_text => extract_text page = inr page_text)
                pages texts ->
        extract_text_from_pdf pdf_bytes w
        = ({| calls := w.(calls) ++ CallPdfReader pdf_bytes
                         :: replicate (length pages) CallExtractText;
              drawn := w.(drawn) |},
           inr (concat ((fun page_text => page_text ++ [newline]) <$> texts))))
  /\ (PdfReader pdf_bytes = inr [] ->
      extract_text_from_pdf pdf_bytes w
      = (logged (CallPdfReader pdf_bytes) w, inr [])).
Proof.
  rewrite extract_text_from_pdf_run. repeat split.
  - by intros e ->.
  - intros pages page e -> Hin Hpage.
    by destruct (pages_loop_raises pages page e []
                   (logged (CallPdfReader pdf_bytes) w) Hin Hpage)
      as (w' & e' & ->).
  - intros pages texts -> Hall. rewrite (pages_loop_texts _ _ _ _ Hall).
    cbn [logged calls drawn]. by rewrite <- app_assoc.
  - by intros ->.
Qed.

End PipelineProperties.

(** ** The properties on the fixture *)

Lemma unparsable_match_raises_witness :
  @analyze_document_with_openai (Fixture.services Fixture.python_reply)
    (lit "Policy") (lit "uuid-0") initial_world
  = (logged (CallSendMessage (Fixture.chat_of (lit "uuid-0"))
                             (Fixture.message_of (lit "Policy")))
            initial_world,
     inl (http 500 (lit "Failed to analyze document: JSONDecodeError"))).
Proof.
  apply (@unparsable_match_raises (Fixture.services Fixture.python_reply)
           (lit "Policy") (lit "uuid-0") (lit "sk-test") Fixture.python_reply
           (lit "JSONDecodeError") (lit "{'effective_date': None}")
           (EJSONDecode (lit "JSONDecodeError")) initial_world);
    vm_compute; reflexivity.
Defined.

Lemma user_text_limited_to_4000_witness :
  (exists chat,
      calls_since initial_world
        (fst (@analyze_document_with_openai
                (Fixture.services Fixture.sample_reply)
                (repeat 120%N 4001) (lit "uuid-0") initial_world))
      = [CallSendMessage chat
           {| text := USER_PROMPT ++ take 4000 (repeat 120%N 4001) |}])
  /\ (length (take 4000 (repeat 120%N 4001)) <= 4000)%nat
  /\ take 4000 (repeat 120%N 4001) `prefix_of` repeat 120%N 4001
  /\ @analyze_document_with_openai (Fixture.services Fixture.sample_reply)
       (take 4000 (repeat 120%N 4001)) (lit "uuid-0") initial_world
     = @analyze_document_with_openai (Fixture.services Fixture.sample_reply)
         (repeat 120%N 4001) (lit "uuid-0") initial_world.
Proof.
  apply (@user_text_limited_to_4000 (Fixture.services Fixture.sample_reply)
           (repeat 120%N 4001) (lit "uuid-0") (lit "sk-test") initial_world);
    vm_compute; reflexivity.
Defined.

Lemma oversized_upload_rejected_before_any_call_witness :
  @analyze_document (Fixture.services Fixture.sample_reply)
    Fixture.oversized_upload initial_world
  = (initial_world, inl size_error)
  /\ calls_since initial_world
       (fst (@analyze_document (Fixture.services Fixture.sample_reply)
               Fixture.oversized_upload initial_world)) = [].
Proof.
  apply (@oversized_upload_rejected_before_any_call
           (Fixture.services Fixture.sample_reply) Fixture.oversized_upload
           (10 * 1024 * 1024 + 1)%Z initial_world); reflexivity.
Defined.

Lemma blank_text_rejected_without_exchange_witness :
  @analyze_document (Fixture.services Fixture.sample_reply)
    (Fixture.pdf_upload [" "%string]) initial_world
  = ({| calls := [CallRead; CallPdfReader (Fixture.pdf_of [" "%string]);
                  CallExtractText];
        drawn := 0 |},
     inl empty_text_error)
  /\ forall c,
      c ∈ calls_since initial_world
            {| calls := [CallRead;
                         CallPdfReader (Fixture.pdf_of [" "%string]);
                         CallExtractText];
               drawn := 0 |} ->
      is_send_message c = false.
Proof.
  apply (@blank_text_rejected_without_exchange
           (Fixture.services Fixture.sample_reply)
           (Fixture.pdf_upload [" "%string]) initial_world _ [32; 10]%N);
    [reflexivity | reflexivity | reflexivity |].
  apply Forall_forall. repeat constructor.
Defined.

Lemma size_check_needs_declared_size_witness :
  exists w' r first rest,
    @analyze_document (Fixture.services Fixture.sample_reply)
      Fixture.unsized_upload initial_world = (w', r)
    /\ calls_since initial_world w' = CallRead :: first :: rest
    /\ (first = CallPdfReader Fixture.unsized_upload.(content)
        \/ first = CallImageOpen Fixture.unsized_upload.(content))
    /\ r <> inl size_error.
Proof.
  apply (proj2 (proj2 (@size_check_needs_declared_size
                         (Fixture.services Fixture.sample_reply)
                         Fixture.unsized_upload initial_world)
                  (or_introl eq_refl))).
  reflexivity.
Defined.

Lemma analyze_document_completed_witness :
  exists result w3,
    @analyze_document (Fixture.services Fixture.sample_reply)
      (Fixture.pdf_upload ["Policy"%string]) initial_world = (w3, inr result)
    /\ result.(effective_date) = slot Fixture.sample_fields Field.effective_date
    /\ result.(insured_party) = slot Fixture.sample_fields Field.insured_party
    /\ result.(underwriter) = slot Fixture.sample_fields Field.underwriter
    /\ result.(legal_description)
       = slot Fixture.sample_fields Field.legal_description
    /\ result.(exceptions) = slot Fixture.sample_fields Field.exceptions
    /\ result.(policy_amount) = slot Fixture.sample_fields Field.policy_amount
    /\ result.(processing_status) = lit "completed"
    /\ result.(compliance_notes)
       = generate_compliance_notes Fixture.sample_fields
    /\ result.(compliance_notes) <> []
    /\ last result.(compliance_notes) = Some Note.reviewed.
Proof.
  apply (@analyze_document_completed (Fixture.services Fixture.sample_reply)
           (Fixture.pdf_upload ["Policy"%string]) initial_world
           {| calls := [CallRead;
                        CallPdfReader (Fixture.pdf_of ["Policy"%string]);
                        CallExtractText];
              drawn := 0 |}
           {| calls := [CallRead;
                        CallPdfReader (Fixture.pdf_of ["Policy"%string]);
                        CallExtractText;
                        CallSendMessage
                          (Fixture.chat_of (lit "uuid-0"))
                          (Fixture.message_of (lit "Policy" ++ [newline]))];
              drawn := 1 |}
           (lit "Policy" ++ [newline]) Fixture.sample_fields);
    vm_compute; reflexivity.
Defined.

Lemma extract_text_from_pdf_outcome_witness :
  @extract_text_from_pdf (Fixture.services Fixture.sample_reply)
    (Fixture.pdf_of ["one"%string; "two"%string]) initial_world
  = ({| calls := [CallPdfReader (Fixture.pdf_of ["one"%string; "two"%string]);
                  CallExtractText; CallExtractText];
        drawn := 0 |},
     inr (lit "one" ++ [newline] ++ lit "two" ++ [newline])).
Proof.
  apply (proj1 (proj2 (proj2
           (@extract_text_from_pdf_outcome
              (Fixture.services Fixture.sample_reply)
              (Fixture.pdf_of ["one"%string; "two"%string]) initial_world)))
           [lit "one"; lit "two"] [lit "one"; lit "two"]);
    [reflexivity | repeat constructor].
Defined.

(** C7, the claim as stated fails.  A document the reader parses to
    zero pages is not an extraction error but the empty text, so it is
    not true that every zero-page document is rejected by
    [extract_text_from_pdf]; and the text of a one-page document ends
    with a newline, so the result is not the page texts with newlines
    between them. *)
Lemma zero_page_pdf_gives_empty_text :
  @extract_text_from_pdf (Fixture.services Fixture.sample_reply)
    (Fixture.pdf_of []) initial_world
  = (logged (CallPdfReader (Fixture.pdf_of [])) initial_world, inr [])
  /\ ~ (forall (S : Services) (pdf_bytes : bytes) (w : world),
          @PdfReader S pdf_bytes = inr [] ->
          exists w' e, @extract_text_from_pdf S pdf_bytes w = (w', inl e))
  /\ @extract_text_from_pdf (Fixture.services Fixture.sample_reply)
       (Fixture.pdf_of ["a"%string]) initial_world
     = ({| calls := [CallPdfReader (Fixture.pdf_of ["a"%string]);
                     CallExtractText];
           drawn := 0 |},
        inr (lit "a" ++ [newline]))
  /\ ~ (forall (S : Services) (pdf_bytes : bytes) (w : world)
               (pages : list (@Page S)) (texts : list str),
          @PdfReader S pdf_bytes = inr pages ->
          Forall2 (fun page page_text => @extract_text S page = inr page_text)
                  pages texts ->
          snd (@extract_text_from_pdf S pdf_bytes w) = inr (join_lines texts)).
Proof.
  split; [reflexivity |]. split.
  - intros Hclaim.
    destruct (Hclaim (Fixture.services Fixture.sample_reply)
                (Fixture.pdf_of []) initial_world eq_refl)
      as (w' & e & Hrun).
    vm_compute in Hrun. discriminate Hrun.
  - split; [reflexivity |]. intros Hclaim.
    specialize (Hclaim (Fixture.services Fixture.sample_reply)
                  (Fixture.pdf_of ["a"%string]) initial_world
                  [lit "a"] [lit "a"] eq_refl).
    assert (Hpages : Forall2
              (fun page page_text =>
                 @extract_text (Fixture.services Fixture.sample_reply) page
                 = inr page_text) [lit "a"] [lit "a"])
      by repeat constructor.
    specialize (Hclaim Hpages). vm_compute in Hclaim. discriminate Hclaim.
Qed.

(** The two ways a reply that is not JSON ends a request on the fixture:
    prose without braces gives a record whose six slots are [None] and
    the notes of an empty field map; braces around a Python literal give
    a 500 error. *)
Example prose_reply_gives_empty_record :
  snd (@analyze_document
         (Fixture.services (lit "I could not read the document."))
         (Fixture.pdf_upload ["Policy"%string]) initial_world)
  = inr {| id := lit "uuid-1";
           effective_date := None;
           insured_party := None;
           underwriter := None;
           legal_description := None;
           exceptions := None;
           policy_amount := None;
           compliance_notes :=
             [Note.effective_date_missing; Note.policy_amount_missing;
              Note.legal_description_missing; Note.standard_coverage;
              Note.reviewed];
           processing_status := lit "completed";
           timestamp := 2 |}.
Proof. vm_compute. reflexivity. Qed.

Example python_reply_fails_request :
  snd (@analyze_document (Fixture.services Fixture.python_reply)
         (Fixture.pdf_upload ["Policy"%string]) initial_world)
  = inl (http 500 (lit "Failed to analyze document: JSONDecodeError")).
Proof. vm_compute. reflexivity. Qed.

(** * Further properties of the code *)

(** A closed, decidable statement whose decision evaluates to [true]. *)
Ltac by_computation :=
  match goal with
  | |- ?P => apply (bool_decide_unpack P); vm_compute; exact I
  end.

(** ** The note generator *)

(** X14.  The note list has between two and six notes, no note twice,
    and its length is two plus the number of missing fields among
    effective date, policy amount and legal description, plus one when
    the underwriter is present. *)
Theorem compliance_notes_shape (m : gmap str pyvalue) :
  let notes := generate_compliance_notes m in
  (2 <= length notes <= 6)%nat
  /\ NoDup notes
  /\ length notes
     = (2 + Nat.b2n (missing m Field.effective_date)
        + Nat.b2n (missing m Field.policy_amount)
        + Nat.b2n (missing m Field.legal_description)
        + Nat.b2n (present m Field.underwriter))%nat.
Proof.
  unfold missing, present. notes_cases m; by_computation.
Qed.

(** X15.  The generator looks at five keys only: setting or removing any
    other key, the insured party among them, leaves the notes as they
    are. *)
Theorem notes_ignore_other_keys
    (m : gmap str pyvalue) (k : str) (v : pyvalue) :
  k ∉ [Field.effective_date; Field.policy_amount; Field.legal_description;
       Field.exceptions; Field.underwriter] ->
  generate_compliance_notes (<[k := v]> m) = generate_compliance_notes m
  /\ generate_compliance_notes (delete k m) = generate_compliance_notes m.
Proof.
  intros Hother. split; apply notes_truthy_ext; intros k' Hk'.
  - rewrite dict_get_insert. destruct (decide (k = k')) as [-> | _]; done.
  - rewrite dict_get_delete. destruct (decide (k = k')) as [-> | _]; done.
Qed.

Lemma notes_ignore_other_keys_witness :
  generate_compliance_notes
    (<[Field.insured_party := PStr (lit "John Smith")]> Fixture.sample_fields)
  = generate_compliance_notes Fixture.sample_fields
  /\ generate_compliance_notes (delete Field.insured_party Fixture.sample_fields)
     = generate_compliance_notes Fixture.sample_fields.
Proof.
  apply (notes_ignore_other_keys Fixture.sample_fields Field.insured_party
           (PStr (lit "John Smith"))).
  by_evaluation.
Defined.

(** ** The request handler *)

Section FurtherPipeline.

Context `{Services}.

(** Every run of the handler ends in one of seven ways. *)
Lemma analyze_document_cases (file : UploadFile) (w : world) :
  exists w' r,
    analyze_document file w = (w', r)
    /\ ((size_too_large file = true /\ w' = w /\ r = inl size_error)
        \/ (size_too_large file = false /\ type_allowed file = false
            /\ w' = w /\ r = inl type_error)
        \/ (size_too_large file = false /\ type_allowed file = true
            /\ exists w1 r1,
                extract_text_by_type file file.(content) (logged CallRead w)
                = (w1, r1)
                /\ ((exists e,
                        r1 = inl e /\ w' = w1 /\ r = inl e
                        /\ (e = pdf_error \/ e = image_error))
                    \/ (exists extracted_text,
                           r1 = inr extracted_text
                           /\ nonempty (strip extracted_text) = false
                           /\ w' = w1 /\ r = inl empty_text_error)
                    \/ (exists extracted_text w2 r2,
                           r1 = inr extracted_text
                           /\ nonempty (strip extracted_text) = true
                           /\ analyze_document_with_openai extracted_text
                                (uuid4 w1.(drawn))
                                {| calls := w1.(calls);
                                   drawn := S w1.(drawn) |} = (w2, r2)
                           /\ ((exists message,
                                   r2 = inl (http 500 message) /\ w' = w2
                                   /\ r = inl (http 500 message))
                               \/ (exists v,
                                      r2 = inr v /\ (forall d, v <> PDict d)
                                      /\ w' = w2 /\ r = inl internal_error)
                               \/ (exists d,
                                      r2 = inr (PDict d)
                                      /\ w' = {| calls := w2.(calls);
                                                 drawn := S (S w2.(drawn)) |}
                                      /\ (r = inl internal_error
                                          \/ exists f1 f2 f3 f4 f5 f6,
                                               optional_str (dict_get d Field.effective_date) = inr f1
                                               /\ optional_str (dict_get d Field.insured_party) = inr f2
                                               /\ optional_str (dict_get d Field.underwriter) = inr f3
                                               /\ optional_str (dict_get d Field.legal_description) = inr f4
                                               /\ optional_str (dict_get d Field.exceptions) = inr f5
                                               /\ optional_str (dict_get d Field.policy_amount) = inr f6
                                               /\ r = inr {| id := uuid4 w2.(drawn);
                                                             effective_date := f1;
                                                             insured_party := f2;
                                                             underwriter := f3;
                                                             legal_description := f4;
                                                             exceptions := f5;
                                                             policy_amount := f6;
                                                             compliance_notes :=
                                                               generate_compliance_notes d;
                                                             processing_status := lit "completed";
                                                             timestamp := utcnow (S w2.(drawn)) |}))))))).
Proof.
  destruct (size_too_large file) eqn:Hsize.
  { eexists _, _. split; [by apply analyze_document_size |]. by left. }
  destruct (type_allowed file) eqn:Htype; cycle 1.
  { eexists _, _. split; [by apply analyze_document_type |]. right. by left. }
  destruct (extract_text_by_type file file.(content) (logged CallRead w))
    as [w1 r1] eqn:Hextract.
  destruct (extract_text_by_type_run file file.(content) (logged CallRead w))
    as (cs & r1' & Hrun & _ & _ & Herr).
  rewrite Hextract in Hrun. injection Hrun as Hw1 <-.
  destruct r1 as [e | extracted_text].
  { exists w1, (inl e).
    split; [by apply analyze_document_extraction_fails |].
    right. right. do 2 (split; [done |]). exists w1, (inl e).
    split; [done |]. left. exists e. by repeat split; [apply Herr]. }
  destruct (nonempty (strip extracted_text)) eqn:Htext; cycle 1.
  { exists w1, (inl empty_text_error).
    split; [by eapply analyze_document_empty_text |].
    right. right. do 2 (split; [done |]). exists w1, (inr extracted_text).
    split; [done |]. right. left. by exists extracted_text. }
  destruct (analyze_document_with_openai extracted_text (uuid4 w1.(drawn))
              {| calls := w1.(calls); drawn := S w1.(drawn) |})
    as [w2 r2] eqn:Hexchange.
  destruct (analyze_document_with_openai_outcome _ _ _ _ _ Hexchange)
    as [_ Herr2].
  destruct r2 as [e | v].
  { destruct (Herr2 e eq_refl) as [message ->].
    exists w2, (inl (http 500 message)).
    split; [by eapply analyze_document_exchange_fails |].
    right. right. do 2 (split; [done |]). exists w1, (inr extracted_text).
    split; [done |]. right. right. eexists extracted_text, w2, _.
    do 3 (split; [done |]). left. by exists message. }
  assert (Hdict : (exists d, v = PDict d) \/ forall d, v <> PDict d).
  { destruct v; try (by right); left; by eexists. }
  destruct Hdict as [[d ->] | Hshape].
  - pose proof (analyze_document_dict _ _ _ _ _ _ Hsize Htype Hextract Htext
                  Hexchange) as Hrun.
    cbv zeta in Hrun. eexists _, _. split; [exact Hrun |].
    right. right. do 2 (split; [done |]). exists w1, (inr extracted_text).
    split; [done |]. right. right. eexists extracted_text, w2, _.
    do 3 (split; [done |]). right. right. exists d.
    do 2 (split; [done |]).
    destruct (optional_str (dict_get d Field.effective_date)) as [? | f1];
      [by left |].
    destruct (optional_str (dict_get d Field.insured_party)) as [? | f2];
      [by left |].
    destruct (optional_str (dict_get d Field.underwriter)) as [? | f3];
      [by left |].
    destruct (optional_str (dict_get d Field.legal_description)) as [? | f4];
      [by left |].
    destruct (optional_str (dict_get d Field.exceptions)) as [? | f5];
      [by left |].
    destruct (optional_str (dict_get d Field.policy_amount)) as [? | f6];
      [by left |].
    right. by exists f1, f2, f3, f4, f5, f6.
  - exists w2, (inl internal_error).
    split; [by eapply analyze_document_not_a_dict |].
    right. right. do 2 (split; [done |]). exists w1, (inr extracted_text).
    split; [done |]. right. right. eexists extracted_text, w2, _.
    do 3 (split; [done |]). right. left. by exists v.
Qed.

(** *** Worlds *)

(** The chat a request with this key and session identifier talks to. *)
Lemma exchange_world
    (extracted_text session_id : str) (w w' : world) (r : exn + pyvalue) :
  analyze_document_with_openai extracted_text session_id w = (w', r) ->
  (environ_set (lit "OPENAI_API_KEY") = false /\ w' = w
   /\ r = inl (http 500 (lit "Failed to analyze document: "
                         ++ exn_str key_error)))
  \/ (exists key,
         environ !! lit "OPENAI_API_KEY" = Some key
         /\ environ_set (lit "OPENAI_API_KEY") = true
         /\ w' = logged
                   (CallSendMessage
                      {| api_key := key;
                         session_id := session_id;
                         system_message := SYSTEM_MESSAGE;
                         model := Some (lit "openai", lit "gpt-4o-mini") |}
                      {| text := USER_PROMPT ++ take 4000 extracted_text |})
                   w).
Proof.
  rewrite analyze_document_with_openai_run. unfold environ_set.
  destruct (environ !! lit "OPENAI_API_KEY") as [key |].
  - destruct (nonempty key) eqn:Hkey.
    + cbv zeta. intros [= <- <-]. right. by exists key.
    + intros [= <- <-]. by left.
  - intros [= <- <-]. by left.
Qed.

(** The PDF extractor calls the reader and then the extraction of some
    of the pages, and nothing else. *)
Lemma extract_text_from_pdf_world (pdf_bytes : bytes) (w : world) :
  exists k r,
    extract_text_from_pdf pdf_bytes w
    = ({| calls := w.(calls) ++ CallPdfReader pdf_bytes
                     :: replicate k CallExtractText;
          drawn := w.(drawn) |}, r).
Proof.
  rewrite extract_text_from_pdf_run.
  destruct (PdfReader pdf_bytes) as [e | pages].
  { by exists 0%nat, (inl pdf_error). }
  destruct (pages_loop_run pages [] (logged (CallPdfReader pdf_bytes) w))
    as (k & r & -> & _).
  cbn [logged calls drawn]. rewrite <- app_assoc. cbn [app].
  exists k. by destruct r; eexists.
Qed.

(** The image extractor calls PIL and pytesseract only. *)
Lemma extract_text_from_image_world (image_bytes : bytes) (w : world) :
  exists cs r,
    extract_text_from_image image_bytes w
    = ({| calls := w.(calls) ++ CallImageOpen image_bytes :: cs;
          drawn := w.(drawn) |}, r)
    /\ Forall (fun c => is_image_call c = true) cs.
Proof.
  unfold extract_text_from_image. run_monad. unfold logged.
  destruct (Image_open image_bytes) as [e | image];
    [| destruct (bool_decide (Image_mode image ≠ lit "RGB"));
       [destruct (Image_convert image (lit "RGB")) as [e | image'];
        [| destruct (image_to_string image') as [e | text]]
       | destruct (image_to_string image) as [e | text]]];
    cbn [calls drawn]; rewrite <- ?app_assoc; cbn [app];
    eexists _, _; (split; [reflexivity |]); repeat constructor.
Qed.

(** The calls of text extraction are those of the library the declared
    type stands for. *)
Lemma extract_text_by_type_world (file : UploadFile) (b : bytes) (w : world) :
  exists cs r,
    extract_text_by_type file b w
    = ({| calls := w.(calls) ++ cs; drawn := w.(drawn) |}, r)
    /\ (file.(content_type) = Some (lit "application/pdf") ->
        Forall (fun c => is_pdf_call c = true) cs)
    /\ (file.(content_type) <> Some (lit "application/pdf") ->
        Forall (fun c => is_image_call c = true) cs).
Proof.
  unfold extract_text_by_type.
  destruct (bool_decide_reflect
              (content_type file = Some (lit "application/pdf")))
    as [Hpdf | Himage].
  - destruct (extract_text_from_pdf_world b w) as (k & r & ->).
    eexists _, r. split; [reflexivity |]. split; [| done].
    intros _. constructor; [done |]. by apply Forall_replicate.
  - destruct (extract_text_from_image_world b w) as (cs & r & -> & Hcs).
    eexists _, r. split; [reflexivity |]. split; [done |].
    intros _. by constructor.
Qed.

(** The calls of a whole run: nothing, or the read, the calls of text
    extraction and at most one message to the chat service; and the
    values drawn: none, the session identifier, or the session
    identifier, the record identifier and the timestamp. *)
Lemma analyze_document_world (file : UploadFile) (w : world) :
  exists w' r,
    analyze_document file w = (w', r)
    /\ ((w' = w /\ (r = inl size_error \/ r = inl type_error))
        \/ exists cs chat_calls n,
             w' = {| calls := w.(calls) ++ CallRead :: cs ++ chat_calls;
                     drawn := (w.(drawn) + n)%nat |}
             /\ (file.(content_type) = Some (lit "application/pdf") ->
                 Forall (fun c => is_pdf_call c = true) cs)
             /\ (file.(content_type) <> Some (lit "application/pdf") ->
                 Forall (fun c => is_image_call c = true) cs)
             /\ ((chat_calls = [] /\ (n = 0 \/ n = 1)%nat /\ exists e, r = inl e)
                 \/ (exists chat user_message,
                        chat_calls = [CallSendMessage chat user_message]
                        /\ chat.(session_id) = uuid4 w.(drawn)
                        /\ chat.(model) = Some (lit "openai", lit "gpt-4o-mini")
                        /\ ((n = 1%nat /\ exists e, r = inl e)
                            \/ n = 3%nat)))).
Proof.
  destruct (analyze_document_cases file w) as (w' & r & Hrun & Hcases).
  exists w', r. split; [done |].
  destruct Hcases as [(_ & -> & ->) | [(_ & _ & -> & ->) | Hread]];
    [left; split; [done | by left] | left; split; [done | by right] |].
  right. destruct Hread as (_ & _ & w1 & r1 & Hextract & Hstage).
  destruct (extract_text_by_type_world file file.(content) (logged CallRead w))
    as (cs & r1' & Hworld & Hpdf & Himage).
  rewrite Hextract in Hworld. injection Hworld as Hw1 <-.
  cbn [logged calls drawn] in Hw1. rewrite <- app_assoc in Hw1.
  cbn [app] in Hw1.
  destruct Hstage
    as [(e & -> & -> & -> & _)
       | [(text & -> & _ & -> & ->)
         | (text & w2 & r2 & -> & _ & Hexchange & Hend)]].
  - exists cs, [], 0%nat. rewrite app_nil_r, Nat.add_0_r.
    repeat split; try done. left. repeat split; [by left | by eexists].
  - exists cs, [], 0%nat. rewrite app_nil_r, Nat.add_0_r.
    repeat split; try done. left. repeat split; [by left | by eexists].
  - destruct (exchange_world _ _ _ _ _ Hexchange)
      as [(_ & Hw2 & Hr2) | (key & _ & _ & Hw2)].
    + exists cs, [], 1%nat. rewrite app_nil_r.
      subst w2 r2.
      destruct Hend
        as [(message & _ & -> & ->)
           | [(v & [=] & _) | (d & [=] & _)]].
      rewrite Hw1. cbn [calls drawn]. rewrite Nat.add_1_r.
      repeat split; try done. left. repeat split; [by right | by eexists].
    + exists cs,
        [CallSendMessage
           {| api_key := key;
              session_id := uuid4 (drawn w1);
              system_message := SYSTEM_MESSAGE;
              model := Some (lit "openai", lit "gpt-4o-mini") |}
           {| text := USER_PROMPT ++ take 4000 text |}].
      destruct Hend
        as [(message & _ & -> & ->)
           | [(v & _ & _ & -> & ->) | (d & _ & -> & _)]].
      * exists 1%nat. rewrite Hw2, Hw1. unfold logged. cbn [calls drawn].
        rewrite <- app_assoc, Nat.add_1_r. cbn [app].
        repeat split; try done. right. eexists _, _.
        split; [reflexivity |]. cbn [session_id model].
        repeat split. left. split; [done | by eexists].
      * exists 1%nat. rewrite Hw2, Hw1. unfold logged. cbn [calls drawn].
        rewrite <- app_assoc, Nat.add_1_r. cbn [app].
        repeat split; try done. right. eexists _, _.
        split; [reflexivity |]. cbn [session_id model].
        repeat split. left. split; [done | by eexists].
      * exists 3%nat. rewrite Hw2, Hw1. unfold logged. cbn [calls drawn].
        rewrite <- app_assoc. cbn [app].
        replace (S (S (S (drawn w)))) with (drawn w + 3)%nat by lia.
        repeat split; try done. right. eexists _, _.
        split; [reflexivity |]. cbn [session_id model].
        repeat split. by right.
Qed.

(** *** Validation *)

(** X1.  An upload whose declared type is absent or outside the
    allow-list is rejected before the upload is read: the world is
    unchanged, and the error is the size error when the declared size is
    also over the limit, the type error otherwise. *)
Theorem unsupported_type_rejected_before_read (file : UploadFile) (w : world) :
  (file.(content_type) = None
   \/ exists t, file.(content_type) = Some t /\ t ∉ allowed_types) ->
  analyze_document file w
  = (w, inl (if size_too_large file then size_error else type_error)).
Proof.
  intros Hdeclared.
  assert (Htype : type_allowed file = false).
  { unfold type_allowed. destruct Hdeclared as [-> | (t & -> & Ht)]; [done |].
    by apply bool_decide_eq_false. }
  destruct (size_too_large file) eqn:Hsize.
  - by apply analyze_document_size.
  - by apply analyze_document_type.
Qed.

(** X4.  A request only ever calls the library its declared type stands
    for: with the PDF type no call goes to PIL or pytesseract, with any
    other type no call goes to PyPDF2. *)
Theorem extractor_matches_declared_type
    (file : UploadFile) (w : world) (c : call) :
  c ∈ calls_since w (fst (analyze_document file w)) ->
  (file.(content_type) = Some (lit "application/pdf") ->
   is_image_call c = false)
  /\ (file.(content_type) <> Some (lit "application/pdf") ->
      is_pdf_call c = false).
Proof.
  destruct (analyze_document_world file w) as (w' & r & -> & Hworld).
  cbn [fst].
  destruct Hworld as [[-> _] | (cs & chat_calls & n & -> & Hpdf & Himage & Hchat)].
  { rewrite calls_since_refl. by intros Hc%elem_of_nil. }
  rewrite (calls_since_app w _ (CallRead :: cs ++ chat_calls)) by done.
  intros [-> | [Hc | Hc]%elem_of_app]%elem_of_cons; [done | |].
  - split; intros Htype.
    + pose proof (proj1 (Forall_forall _ _) (Hpdf Htype) c Hc) as Hcall.
      by destruct c.
    + pose proof (proj1 (Forall_forall _ _) (Himage Htype) c Hc) as Hcall.
      by destruct c.
  - destruct Hchat as [(-> & _) | (chat & user_message & -> & _)].
    + by apply elem_of_nil in Hc.
    + by apply list_elem_of_singleton in Hc as ->.
Qed.

(** X10.  A request that fails always fails with an [HTTPException]
    whose status is 400 or 500, one of: the size, type, PDF, image and
    empty-text errors (400), the internal error and the errors of the
    chat exchange (500).  A 400 error is raised before any message goes
    to the chat service and before anything is drawn. *)
Theorem analyze_document_errors
    (file : UploadFile) (w w' : world) (e : exn) :
  analyze_document file w = (w', inl e) ->
  ((http_status e = Some 400%Z
    /\ (e = size_error \/ e = type_error \/ e = pdf_error
        \/ e = image_error \/ e = empty_text_error)
    /\ w'.(drawn) = w.(drawn)
    /\ forall c, c ∈ calls_since w w' -> is_send_message c = false)
   \/ (http_status e = Some 500%Z
       /\ (e = internal_error \/ exists message, e = http 500 message))).
Proof.
  intros Hrun.
  destruct (analyze_document_cases file w) as (w0 & r & Hrun' & Hcases).
  rewrite Hrun in Hrun'. injection Hrun' as <- <-.
  destruct Hcases
    as [(_ & -> & [= ->])
       | [(_ & _ & -> & [= ->])
         | (_ & _ & w1 & r1 & Hextract & Hstage)]].
  { left. rewrite calls_since_refl. repeat split; auto.
    by intros c Hc%elem_of_nil. }
  { left. rewrite calls_since_refl. repeat split; auto.
    by intros c Hc%elem_of_nil. }
  destruct (extract_text_by_type_run file file.(content) (logged CallRead w))
    as (cs & r1' & Hworld & _ & Hcs & _).
  rewrite Hextract in Hworld. injection Hworld as Hw1 _.
  assert (Hquiet : forall c, c ∈ calls_since w w1 -> is_send_message c = false).
  { rewrite Hw1. cbn [logged calls]. rewrite <- app_assoc.
    rewrite (calls_since_app w _ ([CallRead] ++ cs)) by done.
    intros c [-> | Hc]%elem_of_cons; [done | by apply Hcs]. }
  assert (Hdrawn : w1.(drawn) = w.(drawn)) by by rewrite Hw1.
  destruct Hstage
    as [(e1 & _ & -> & [= ->] & He1)
       | [(text & _ & _ & -> & [= ->])
         | (text & w2 & r2 & _ & _ & _ & Hend)]].
  - left. destruct He1 as [-> | ->]; repeat split; auto.
  - left. repeat split; auto.
  - right.
    destruct Hend
      as [(message & _ & _ & [= ->])
         | [(v & _ & _ & _ & [= ->])
           | (d & _ & _ & [[= ->] | Hok])]].
    + split; [done | right; by exists message].
    + split; [done | by left].
    + split; [done | by left].
    + by destruct Hok as (f1 & f2 & f3 & f4 & f5 & f6 & _ & _ & _ & _ & _ & _ & [=]).
Qed.

(** X12.  A request that succeeds has passed the size and type checks,
    has read the upload, has made the calls of text extraction and then
    exactly one call to the chat service, whose session identifier is
    the first value drawn; the record's identifier is the second value
    drawn and its timestamp the third, and nothing else is drawn. *)
Theorem successful_request_effects
    (file : UploadFile) (w w' : world) (result : DocumentAnalysisResult) :
  analyze_document file w = (w', inr result) ->
  size_too_large file = false
  /\ type_allowed file = true
  /\ w'.(drawn) = (w.(drawn) + 3)%nat
  /\ result.(id) = uuid4 (S w.(drawn))
  /\ result.(timestamp) = utcnow (S (S w.(drawn)))
  /\ exists cs chat user_message,
      calls_since w w' = CallRead :: cs ++ [CallSendMessage chat user_message]
      /\ (forall c, c ∈ cs -> is_extraction_call c = true)
      /\ chat.(session_id) = uuid4 w.(drawn).
Proof.
  intros Hrun.
  destruct (analyze_document_cases file w) as (w0 & r & Hrun' & Hcases).
  rewrite Hrun in Hrun'. injection Hrun' as <- <-.
  destruct Hcases
    as [(_ & _ & [=])
       | [(_ & _ & _ & [=])
         | (Hsize & Htype & w1 & r1 & Hextract & Hstage)]].
  destruct (extract_text_by_type_world file file.(content) (logged CallRead w))
    as (cs & r1' & Hworld & Hpdf & Himage).
  rewrite Hextract in Hworld. injection Hworld as Hw1 _.
  cbn [logged calls drawn] in Hw1. rewrite <- app_assoc in Hw1.
  cbn [app] in Hw1.
  destruct Hstage
    as [(e1 & _ & _ & [=] & _)
       | [(text & _ & _ & _ & [=])
         | (text & w2 & r2 & _ & _ & Hexchange & Hend)]].
  destruct Hend
    as [(message & _ & _ & [=])
       | [(v & _ & _ & _ & [=])
         | (d & -> & -> & [[=] | Hok])]].
  destruct Hok as (f1 & f2 & f3 & f4 & f5 & f6 & _ & _ & _ & _ & _ & _ & [= ->]).
  destruct (exchange_world _ _ _ _ _ Hexchange)
    as [(_ & _ & [=]) | (key & _ & _ & ->)].
  subst w1. unfold logged. cbn [calls drawn id timestamp].
  do 2 (split; [done |]). split; [lia |]. do 2 (split; [done |]).
  eexists cs, _, _. split.
  { apply calls_since_app. cbn [calls]. rewrite <- app_assoc. reflexivity. }
  split; [| done].
  intros c Hc.
  destruct (decide (file.(content_type) = Some (lit "application/pdf")))
    as [Hispdf | Hisimage].
  - pose proof (proj1 (Forall_forall _ _) (Hpdf Hispdf) c Hc). by destruct c.
  - pose proof (proj1 (Forall_forall _ _) (Himage Hisimage) c Hc).
    by destruct c.
Qed.

(** X13.  In every record a request returns, a slot that is [None]
    comes with its note: the warnings for a missing effective date,
    policy amount and legal description, the standard-coverage note and
    not the review note for missing exceptions, and no confirmation for
    a missing underwriter.  The status is ["completed"] and the last
    note is the reviewed note. *)
Theorem null_slots_carry_their_notes
    (file : UploadFile) (w w' : world) (result : DocumentAnalysisResult) :
  analyze_document file w = (w', inr result) ->
  (result.(effective_date) = None ->
   Note.effective_date_missing ∈ result.(compliance_notes))
  /\ (result.(policy_amount) = None ->
      Note.policy_amount_missing ∈ result.(compliance_notes))
  /\ (result.(legal_description) = None ->
      Note.legal_description_missing ∈ result.(compliance_notes))
  /\ (result.(exceptions) = None ->
      Note.standard_coverage ∈ result.(compliance_notes)
      /\ Note.exceptions_review ∉ result.(compliance_notes))
  /\ (result.(underwriter) = None ->
      Note.underwriter_confirmed ∉ result.(compliance_notes))
  /\ result.(processing_status) = lit "completed"
  /\ last result.(compliance_notes) = Some Note.reviewed.
Proof.
  intros Hrun.
  destruct (analyze_document_cases file w) as (w0 & r & Hrun' & Hcases).
  rewrite Hrun in Hrun'. injection Hrun' as <- <-.
  destruct Hcases
    as [(_ & _ & [=])
       | [(_ & _ & _ & [=])
         | (_ & _ & w1 & r1 & _ & Hstage)]].
  destruct Hstage
    as [(e1 & _ & _ & [=] & _)
       | [(text & _ & _ & _ & [=])
         | (text & w2 & r2 & _ & _ & _ & Hend)]].
  destruct Hend
    as [(message & _ & _ & [=])
       | [(v & _ & _ & _ & [=])
         | (d & _ & _ & [[=] | Hok])]].
  destruct Hok
    as (f1 & f2 & f3 & f4 & f5 & f6 & H1 & _ & H3 & H4 & H5 & H6 & [= ->]).
  cbn [effective_date policy_amount legal_description exceptions underwriter
         compliance_notes processing_status].
  assert (Hnull : forall k f,
             optional_str (dict_get d k) = inr f -> f = None ->
             truthy (dict_get d k) = false).
  { intros k f Hf ->. unfold optional_str in Hf.
    destruct (dict_get d k); try done; by destruct (coerce_str _). }
  assert (Hcases : forall k,
             truthy (dict_get d k) = false ->
             forall P : list str -> Prop,
               (forall a b c x e,
                   P (generate_compliance_notes
                        (<[k := PNone]>
                           (<[Field.effective_date := PBool a]>
                              (<[Field.policy_amount := PBool b]>
                                 (<[Field.legal_description := PBool c]>
                                    (<[Field.exceptions := PBool x]>
                                       (<[Field.underwriter := PBool e]> ∅)))))))) ->
               k ∈ [Field.effective_date; Field.policy_amount;
                    Field.legal_description; Field.exceptions;
                    Field.underwriter] ->
               P (generate_compliance_notes d)).
  { intros k Hfalsy P HP Hk.
    erewrite (notes_truthy_ext d); [apply HP |].
    intros k' Hk'. rewrite !dict_get_insert.
    destruct (decide (k = k')) as [<- | Hne]; [exact Hfalsy |].
    clear Hk.
    repeat (apply elem_of_cons in Hk' as [-> | Hk']);
      [.. | by apply elem_of_nil in Hk'];
      repeat (rewrite decide_False by (intros Heq; vm_compute in Heq;
                                       discriminate Heq));
      rewrite decide_True by reflexivity; cbn [truthy];
      by destruct (truthy _). }
  split; [| split; [| split; [| split; [| split; [| split]]]]].
  - intros Hslot. apply (Hcases _ (Hnull _ _ H1 Hslot)); [| by_computation].
    intros [] [] [] [] []; by_computation.
  - intros Hslot. apply (Hcases _ (Hnull _ _ H6 Hslot)); [| by_computation].
    intros [] [] [] [] []; by_computation.
  - intros Hslot. apply (Hcases _ (Hnull _ _ H4 Hslot)); [| by_computation].
    intros [] [] [] [] []; by_computation.
  - intros Hslot.
    apply (Hcases _ (Hnull _ _ H5 Hslot)
             (fun notes => Note.standard_coverage ∈ notes
                           /\ Note.exceptions_review ∉ notes));
      [| by_computation].
    intros [] [] [] [] []; by_computation.
  - intros Hslot.
    apply (Hcases _ (Hnull _ _ H3 Hslot)
             (fun notes => Note.underwriter_confirmed ∉ notes));
      [| by_computation].
    intros [] [] [] [] []; by_computation.
  - done.
  - apply generate_compliance_notes_last.
Qed.

(** *** The chat exchange inside a request *)

(** Once the exchange has run, the handler makes no further call. *)
Lemma calls_after_exchange
    (file : UploadFile) (w w1 w2 : world) (extracted_text : str)
    (r2 : exn + pyvalue) :
  size_too_large file = false ->
  type_allowed file = true ->
  extract_text_by_type file file.(content) (logged CallRead w)
  = (w1, inr extracted_text) ->
  nonempty (strip extracted_text) = true ->
  analyze_document_with_openai extracted_text (uuid4 w1.(drawn))
    {| calls := w1.(calls); drawn := S w1.(drawn) |} = (w2, r2) ->
  (fst (analyze_document file w)).(calls) = w2.(calls).
Proof.
  intros Hsize Htype Hextract Htext Hexchange.
  destruct r2 as [e | v].
  { by rewrite (analyze_document_exchange_fails _ _ _ _ _ _ Hsize Htype
                  Hextract Htext Hexchange). }
  assert (Hdict : (exists d, v = PDict d) \/ forall d, v <> PDict d).
  { destruct v; try (by right); left; by eexists. }
  destruct Hdict as [[d ->] | Hshape].
  - by rewrite (analyze_document_dict _ _ _ _ _ _ Hsize Htype Hextract Htext
                  Hexchange).
  - by rewrite (analyze_document_not_a_dict _ _ _ _ _ _ Hsize Htype Hextract
                  Htext Hexchange Hshape).
Qed.

(** X5.  The key is looked for only after the upload has been read and
    its text extracted: with the key unset or empty, a request that
    passes the checks still draws its session identifier and then fails
    with a 500 error that wraps the key error, without any call to the
    chat service. *)
Theorem missing_key_fails_after_extraction
    (file : UploadFile) (w w1 : world) (extracted_text : str) :
  size_too_large file = false ->
  type_allowed file = true ->
  extract_text_by_type file file.(content) (logged CallRead w)
  = (w1, inr extracted_text) ->
  nonempty (strip extracted_text) = true ->
  environ_set (lit "OPENAI_API_KEY") = false ->
  analyze_document file w
  = ({| calls := w1.(calls); drawn := S w1.(drawn) |},
     inl (http 500
            (lit "Failed to analyze document: "
             ++ HTTPException_str
                  {| status_code := 500;
                     detail := lit "OpenAI API key not configured" |}))).
Proof.
  intros Hsize Htype Hextract Htext Hkey.
  eapply analyze_document_exchange_fails; try done.
  rewrite analyze_document_with_openai_run.
  unfold environ_set in Hkey.
  destruct (environ !! lit "OPENAI_API_KEY") as [key |]; [| done].
  by rewrite Hkey.
Qed.

(** X6.  When the chat service raises, the request fails with a 500
    error whose detail is ["Failed to analyze document: "] followed by
    the text of the exception; the one call made to the service is the
    last call of the request, and no record is built. *)
Theorem service_failure_surfaces_as_500
    (file : UploadFile) (w w1 : world) (extracted_text key : str) (e : exn) :
  let chat :=
    with_model (new_LlmChat key (uuid4 w1.(drawn)) SYSTEM_MESSAGE)
               (lit "openai") (lit "gpt-4o-mini") in
  let user_message :=
    {| text := USER_PROMPT ++ slice_to TEXT_LIMIT extracted_text |} in
  size_too_large file = false ->
  type_allowed file = true ->
  extract_text_by_type file file.(content) (logged CallRead w)
  = (w1, inr extracted_text) ->
  nonempty (strip extracted_text) = true ->
  environ !! lit "OPENAI_API_KEY" = Some key ->
  nonempty key = true ->
  send_message chat user_message = inl e ->
  analyze_document file w
  = ({| calls := w1.(calls) ++ [CallSendMessage chat user_message];
        drawn := S w1.(drawn) |},
     inl (http 500 (lit "Failed to analyze document: " ++ exn_str e))).
Proof.
  intros chat user_message Hsize Htype Hextract Htext Hkey Hnonempty Hraise.
  eapply analyze_document_exchange_fails; try done.
  rewrite analyze_document_with_openai_run, Hkey, Hnonempty. cbv zeta.
  fold chat user_message. by rewrite Hraise.
Qed.

(** X7.  A reply that is JSON but not an object (a list, a string, a
    number, [true], [false] or [null]) is returned by the exchange as it
    is, and the request then fails with the 500 internal error. *)
Theorem non_object_reply_is_internal_error
    (file : UploadFile) (w w1 : world) (extracted_text key response : str)
    (v : pyvalue) :
  let chat :=
    with_model (new_LlmChat key (uuid4 w1.(drawn)) SYSTEM_MESSAGE)
               (lit "openai") (lit "gpt-4o-mini") in
  let user_message :=
    {| text := USER_PROMPT ++ slice_to TEXT_LIMIT extracted_text |} in
  size_too_large file = false ->
  type_allowed file = true ->
  extract_text_by_type file file.(content) (logged CallRead w)
  = (w1, inr extracted_text) ->
  nonempty (strip extracted_text) = true ->
  environ !! lit "OPENAI_API_KEY" = Some key ->
  nonempty key = true ->
  send_message chat user_message = inr response ->
  json_loads response = inr v ->
  (forall d, v <> PDict d) ->
  analyze_document file w
  = ({| calls := w1.(calls) ++ [CallSendMessage chat user_message];
        drawn := S w1.(drawn) |},
     inl internal_error).
Proof.
  intros chat user_message Hsize Htype Hextract Htext Hkey Hnonempty Hreply
    Hjson Hshape.
  eapply analyze_document_not_a_dict; try done.
  rewrite analyze_document_with_openai_run, Hkey, Hnonempty. cbv zeta.
  fold chat user_message. by rewrite Hreply, parse_response_run, Hjson.
Qed.

(** X8.  When the reply is an object in which one of the six fields
    holds a value that is neither [None] nor a string and that pydantic
    does not turn into a string, the request fails with the 500
    internal error, after both the identifier and the timestamp have
    been drawn. *)
Theorem unconvertible_field_is_internal_error
    (file : UploadFile) (w w1 : world) (extracted_text key response k : str)
    (d : gmap str pyvalue) :
  let chat :=
    with_model (new_LlmChat key (uuid4 w1.(drawn)) SYSTEM_MESSAGE)
               (lit "openai") (lit "gpt-4o-mini") in
  let user_message :=
    {| text := USER_PROMPT ++ slice_to TEXT_LIMIT extracted_text |} in
  size_too_large file = false ->
  type_allowed file = true ->
  extract_text_by_type file file.(content) (logged CallRead w)
  = (w1, inr extracted_text) ->
  nonempty (strip extracted_text) = true ->
  environ !! lit "OPENAI_API_KEY" = Some key ->
  nonempty key = true ->
  send_message chat user_message = inr response ->
  json_loads response = inr (PDict d) ->
  k ∈ Field.all ->
  is_field_value (d !! k) = false ->
  coerce_str (dict_get d k) = None ->
  analyze_document file w
  = ({| calls := w1.(calls) ++ [CallSendMessage chat user_message];
        drawn := S (S (S w1.(drawn))) |},
     inl internal_error).
Proof.
  intros chat user_message Hsize Htype Hextract Htext Hkey Hnonempty Hreply
    Hjson Hk Hvalue Hcoerce.
  assert (Hexchange :
            analyze_document_with_openai extracted_text (uuid4 w1.(drawn))
              {| calls := w1.(calls); drawn := S w1.(drawn) |}
            = (logged (CallSendMessage chat user_message)
                 {| calls := w1.(calls); drawn := S w1.(drawn) |},
               inr (PDict d))).
  { rewrite analyze_document_with_openai_run, Hkey, Hnonempty. cbv zeta.
    fold chat user_message. by rewrite Hreply, parse_response_run, Hjson. }
  rewrite (analyze_document_dict _ _ _ _ _ _ Hsize Htype Hextract Htext
             Hexchange).
  unfold logged. cbn [calls drawn]. f_equal.
  assert (Hfails : exists e, optional_str (dict_get d k) = inl e).
  { unfold optional_str, is_field_value, dict_get in *.
    destruct (d !! k) as [[] |]; try done; cbn in Hcoerce |- *;
      rewrite Hcoerce; by eexists. }
  destruct Hfails as [e Hfails].
  unfold Field.all in Hk.
  repeat (apply elem_of_cons in Hk as [-> | Hk]);
    [.. | by apply elem_of_nil in Hk];
    rewrite Hfails; by repeat case_match.
Qed.

(** The search finds an object wrapped in text that holds no opening
    brace before it and no closing brace after it. *)
Lemma re_search_braces_wrapped (before inner after : str) :
  open_brace ∉ before ->
  close_brace ∉ after ->
  re_search_braces (before ++ open_brace :: inner ++ close_brace :: after)
  = Some (open_brace :: inner ++ [close_brace]).
Proof.
  intros Hbefore Hafter. unfold re_search_braces.
  assert (Hopen : forall rest,
             after_first_open (before ++ open_brace :: rest) = Some rest).
  { intros rest. induction before as [| c before IH];
      cbn [app after_first_open].
    - by rewrite N.eqb_refl.
    - apply not_elem_of_cons in Hbefore as [Hc Hbefore].
      destruct (N.eqb_spec c open_brace) as [-> | _]; [done | by apply IH]. }
  rewrite Hopen.
  assert (Hclose : upto_last_close (inner ++ close_brace :: after)
                   = Some (inner ++ [close_brace])).
  { induction inner as [| c inner IH]; cbn [app upto_last_close].
    - apply upto_last_close_none in Hafter. rewrite Hafter.
      by rewrite N.eqb_refl.
    - by rewrite IH. }
  by rewrite Hclose.
Qed.

(** X9.  A reply that wraps one JSON object in prose is recovered: when
    the whole reply is not JSON, and the text before the object holds no
    opening brace and the text after it no closing brace, the exchange
    returns what the object alone decodes to. *)
Theorem wrapped_json_is_recovered
    (extracted_text session_id key before inner after msg : str)
    (v : pyvalue) (w : world) :
  let chat :=
    with_model (new_LlmChat key session_id SYSTEM_MESSAGE)
               (lit "openai") (lit "gpt-4o-mini") in
  let user_message :=
    {| text := USER_PROMPT ++ slice_to TEXT_LIMIT extracted_text |} in
  let object := open_brace :: inner ++ [close_brace] in
  environ !! lit "OPENAI_API_KEY" = Some key ->
  nonempty key = true ->
  send_message chat user_message = inr (before ++ object ++ after) ->
  json_loads (before ++ object ++ after) = inl (EJSONDecode msg) ->
  open_brace ∉ before ->
  close_brace ∉ after ->
  json_loads object = inr v ->
  analyze_document_with_openai extracted_text session_id w
  = (logged (CallSendMessage chat user_message) w, inr v).
Proof.
  intros chat user_message object Hkey Hnonempty Hreply Hdirect Hbefore Hafter
    Hobject.
  rewrite analyze_document_with_openai_run, Hkey, Hnonempty. cbv zeta.
  fold chat user_message. rewrite Hreply, parse_response_run, Hdirect.
  assert (Hmatch : re_search_braces (before ++ object ++ after) = Some object).
  { subst object. cbn [app]. rewrite <- app_assoc. cbn [app].
    by apply re_search_braces_wrapped. }
  by rewrite Hmatch, Hobject.
Qed.

(** X11.  A reply that is not JSON and holds no opening brace followed
    by a closing brace does not fail the request: the record returned
    has its six slots [None], the status ["completed"] and the five
    notes of an empty field map. *)
Theorem prose_reply_gives_all_null_record
    (file : UploadFile) (w w1 : world) (extracted_text key response msg : str) :
  let chat :=
    with_model (new_LlmChat key (uuid4 w1.(drawn)) SYSTEM_MESSAGE)
               (lit "openai") (lit "gpt-4o-mini") in
  let user_message :=
    {| text := USER_PROMPT ++ slice_to TEXT_LIMIT extracted_text |} in
  size_too_large file = false ->
  type_allowed file = true ->
  extract_text_by_type file file.(content) (logged CallRead w)
  = (w1, inr extracted_text) ->
  nonempty (strip extracted_text) = true ->
  environ !! lit "OPENAI_API_KEY" = Some key ->
  nonempty key = true ->
  send_message chat user_message = inr response ->
  json_loads response = inl (EJSONDecode msg) ->
  re_search_braces response = None ->
  analyze_document file w
  = ({| calls := w1.(calls) ++ [CallSendMessage chat user_message];
        drawn := S (S (S w1.(drawn))) |},
     inr {| id := uuid4 (S w1.(drawn));
            effective_date := None;
            insured_party := None;
            underwriter := None;
            legal_description := None;
            exceptions := None;
            policy_amount := None;
            compliance_notes :=
              [Note.effective_date_missing; Note.policy_amount_missing;
               Note.legal_description_missing; Note.standard_coverage;
               Note.reviewed];
            processing_status := lit "completed";
            timestamp := utcnow (S (S w1.(drawn))) |}).
Proof.
  intros chat user_message Hsize Htype Hextract Htext Hkey Hnonempty Hreply
    Hdirect Hnone.
  assert (Hexchange :
            analyze_document_with_openai extracted_text (uuid4 w1.(drawn))
              {| calls := w1.(calls); drawn := S w1.(drawn) |}
            = (logged (CallSendMessage chat user_message)
                 {| calls := w1.(calls); drawn := S w1.(drawn) |},
               inr (PDict empty_result))).
  { rewrite analyze_document_with_openai_run, Hkey, Hnonempty. cbv zeta.
    fold chat user_message.
    by rewrite Hreply, parse_response_run, Hdirect, Hnone. }
  rewrite (analyze_document_dict _ _ _ _ _ _ Hsize Htype Hextract Htext
             Hexchange).
  unfold logged. cbn [calls drawn].
  assert (Hget : forall k, k ∈ Field.all -> dict_get empty_result k = PNone).
  { intros k Hk. unfold Field.all in Hk.
    repeat (apply elem_of_cons in Hk as [-> | Hk]);
      [.. | by apply elem_of_nil in Hk]; by vm_compute. }
  rewrite !Hget by by_computation. cbn [optional_str].
  assert (Hnotes : generate_compliance_notes empty_result
                   = [Note.effective_date_missing; Note.policy_amount_missing;
                      Note.legal_description_missing; Note.standard_coverage;
                      Note.reviewed])
    by (vm_compute; reflexivity).
  by rewrite Hnotes.
Qed.

(** X16.  The empty-text check looks at the whole text, the chat
    service gets its first 4000 characters as they are: when these are
    all whitespace and a later character is not, the request passes the
    check and sends the service a document text that is blank. *)
Theorem blank_prefix_reaches_service
    (file : UploadFile) (w w1 : world) (extracted_text key : str) :
  size_too_large file = false ->
  type_allowed file = true ->
  extract_text_by_type file file.(content) (logged CallRead w)
  = (w1, inr extracted_text) ->
  nonempty (strip extracted_text) = true ->
  (forall c, c ∈ take 4000 extracted_text -> is_space c = true) ->
  environ !! lit "OPENAI_API_KEY" = Some key ->
  nonempty key = true ->
  strip (take 4000 extracted_text) = []
  /\ exists chat,
      last (calls_since w (fst (analyze_document file w)))
      = Some (CallSendMessage chat
                {| text := USER_PROMPT ++ take 4000 extracted_text |}).
Proof.
  intros Hsize Htype Hextract Htext Hblank Hkey Hnonempty.
  split; [by apply strip_nil_iff |].
  destruct (analyze_document_with_openai extracted_text (uuid4 w1.(drawn))
              {| calls := w1.(calls); drawn := S w1.(drawn) |})
    as [w2 r2] eqn:Hexchange.
  pose proof (calls_after_exchange _ _ _ _ _ _ Hsize Htype Hextract Htext
                Hexchange) as Hcalls.
  destruct (exchange_world _ _ _ _ _ Hexchange)
    as [(Hunset & _) | (key' & _ & _ & ->)].
  { unfold environ_set in Hunset. rewrite Hkey in Hunset. congruence. }
  destruct (extract_text_by_type_world file file.(content) (logged CallRead w))
    as (cs & r1 & Hworld & _).
  rewrite Hextract in Hworld. injection Hworld as -> _.
  eexists. unfold calls_since. rewrite Hcalls.
  unfold logged. cbn [calls]. rewrite <- !app_assoc.
  rewrite drop_app_length. rewrite !app_assoc. apply last_snoc.
Qed.

(** *** Text extraction *)

(** X2.  A PDF upload the reader cannot parse is rejected with the 400
    PDF extraction error right after the read and the call to the
    reader; it needs no declared size, draws nothing and reaches neither
    the page extraction nor the chat service. *)
Theorem unreadable_pdf_is_rejected (file : UploadFile) (w : world) (e : exn) :
  size_too_large file = false ->
  file.(content_type) = Some (lit "application/pdf") ->
  PdfReader file.(content) = inl e ->
  analyze_document file w
  = ({| calls := w.(calls) ++ [CallRead; CallPdfReader file.(content)];
        drawn := w.(drawn) |},
     inl pdf_error).
Proof.
  intros Hsize Hpdf Hreader.
  assert (Htype : type_allowed file = true).
  { unfold type_allowed. rewrite Hpdf. by_computation. }
  apply analyze_document_extraction_fails; try done.
  unfold extract_text_by_type. rewrite bool_decide_eq_true_2 by done.
  rewrite extract_text_from_pdf_run, Hreader.
  unfold logged. cbn [calls drawn]. by rewrite <- app_assoc.
Qed.

(** X3.  [extract_text_from_image] opens the image, converts it to RGB
    only when its mode is not RGB already, and returns what the
    recogniser reads in the image it then holds; a failure to open, to
    convert or to recognise becomes the image extraction error, and a
    failed step is the last call made. *)
Theorem extract_text_from_image_outcome (image_bytes : bytes) (w : world) :
  (forall e,
      Image_open image_bytes = inl e ->
      extract_text_from_image image_bytes w
      = ({| calls := w.(calls) ++ [CallImageOpen image_bytes];
            drawn := w.(drawn) |},
         inl image_error))
  /\ (forall image,
        Image_open image_bytes = inr image ->
        Image_mode image = lit "RGB" ->
        extract_text_from_image image_bytes w
        = ({| calls := w.(calls)
                       ++ [CallImageOpen image_bytes; CallImageToString];
              drawn := w.(drawn) |},
           match image_to_string image with
           | inl _ => inl image_error
           | inr text => inr text
           end))
  /\ (forall image e,
        Image_open image_bytes = inr image ->
        Image_mode image <> lit "RGB" ->
        Image_convert image (lit "RGB") = inl e ->
        extract_text_from_image image_bytes w
        = ({| calls := w.(calls)
                       ++ [CallImageOpen image_bytes;
                           CallImageConvert (lit "RGB")];
              drawn := w.(drawn) |},
           inl image_error))
  /\ (forall image converted,
        Image_open image_bytes = inr image ->
        Image_mode image <> lit "RGB" ->
        Image_convert image (lit "RGB") = inr converted ->
        extract_text_from_image image_bytes w
        = ({| calls := w.(calls)
                       ++ [CallImageOpen image_bytes;
                           CallImageConvert (lit "RGB"); CallImageToString];
              drawn := w.(drawn) |},
           match image_to_string converted with
           | inl _ => inl image_error
           | inr text => inr text
           end)).
Proof.
  unfold extract_text_from_image. run_monad. unfold logged.
  split; [| split; [| split]].
  - by intros e ->.
  - intros image -> Hmode. rewrite bool_decide_eq_false_2 by by intros ?.
    cbn [calls drawn]. rewrite <- app_assoc.
    by destruct (image_to_string image).
  - intros image e -> Hmode Hconvert.
    rewrite bool_decide_eq_true_2 by done. rewrite Hconvert.
    cbn [calls drawn]. by rewrite <- app_assoc.
  - intros image converted -> Hmode Hconvert.
    rewrite bool_decide_eq_true_2 by done. rewrite Hconvert.
    cbn [calls drawn]. rewrite <- !app_assoc.
    by destruct (image_to_string converted).
Qed.

Lemma pages_loop_stops
    (good : list Page) (texts : list str) (bad : Page) (rest : list Page)
    (e : exn) (text : str) (w : world) :
  Forall2 (fun page page_text => extract_text page = inr page_text)
          good texts ->
  extract_text bad = inl e ->
  pages_loop (good ++ bad :: rest) text w
  = ({| calls := w.(calls) ++ replicate (S (length good)) CallExtractText;
        drawn := w.(drawn) |}, inl e).
Proof.
  intros Hgood Hbad. revert text w.
  induction Hgood as [| page page_text good texts Hpage _ IH]; intros text w.
  - cbn [app pages_loop]. run_monad. by rewrite Hbad.
  - cbn [app pages_loop]. run_monad. rewrite Hpage, IH.
    unfold logged. cbn [calls drawn length replicate].
    by rewrite <- app_assoc.
Qed.

(** X18.  When the extraction of a page raises, the pages after it are
    not extracted and the text of the pages before it is dropped: the
    calls are the reader and one page extraction for each page up to the
    failing one, and the outcome is the PDF extraction error. *)
Theorem pdf_extraction_stops_at_first_failing_page
    (pdf_bytes : bytes) (w : world) (good : list Page) (texts : list str)
    (bad : Page) (rest : list Page) (e : exn) :
  PdfReader pdf_bytes = inr (good ++ bad :: rest) ->
  Forall2 (fun page page_text => extract_text page = inr page_text)
          good texts ->
  extract_text bad = inl e ->
  extract_text_from_pdf pdf_bytes w
  = ({| calls := w.(calls) ++ CallPdfReader pdf_bytes
                   :: replicate (S (length good)) CallExtractText;
        drawn := w.(drawn) |},
     inl pdf_error).
Proof.
  intros Hreader Hgood Hbad.
  rewrite extract_text_from_pdf_run, Hreader.
  rewrite (pages_loop_stops _ _ _ _ _ _ _ Hgood Hbad).
  unfold logged. cbn [calls drawn]. by rewrite <- app_assoc.
Qed.

(** *** The health endpoint *)

(** X17.  [health_check] calls no library: it reads the clock once,
    always reports tesseract as available, and reports the chat service
    as configured exactly when the key is set to a non-empty value, that
    is exactly when an exchange gets as far as sending its message. *)
Theorem health_check_reports_key (w : world) :
  exists report,
    health_check w = ({| calls := w.(calls); drawn := S w.(drawn) |}, inr report)
    /\ report.(Health.status) = lit "healthy"
    /\ report.(Health.timestamp) = utcnow w.(drawn)
    /\ report.(Health.services).(Health.tesseract) = lit "available"
    /\ (report.(Health.services).(Health.openai) = lit "configured"
        \/ report.(Health.services).(Health.openai) = lit "not configured")
    /\ (report.(Health.services).(Health.openai) = lit "configured"
        <-> forall extracted_text session_id w0,
            exists chat user_message,
              calls_since w0
                (fst (analyze_document_with_openai extracted_text session_id w0))
              = [CallSendMessage chat user_message]).
Proof.
  unfold health_check. run_monad. eexists. split; [reflexivity |].
  cbn [Health.status Health.timestamp Health.services Health.tesseract
         Health.openai].
  do 3 (split; [done |]).
  destruct (environ_set (lit "OPENAI_API_KEY")) eqn:Hset.
  - split; [by left |]. split; [| done].
    intros _ extracted_text session_id w0.
    destruct (analyze_document_with_openai extracted_text session_id w0)
      as [w' r] eqn:Hexchange.
    destruct (exchange_world _ _ _ _ _ Hexchange)
      as [(Hunset & _) | (key & _ & _ & ->)]; [congruence |].
    eexists _, _. by apply calls_since_app.
  - split; [by right |]. split.
    + intros Heq. vm_compute in Heq. discriminate Heq.
    + intros Hsends. exfalso.
      destruct (Hsends [] [] w) as (chat & user_message & Hcalls).
      destruct (analyze_document_with_openai [] [] w) as [w' r] eqn:Hexchange.
      destruct (exchange_world _ _ _ _ _ Hexchange)
        as [(_ & -> & _) | (key & _ & Htrue & _)]; [| congruence].
      cbn [fst] in Hcalls. by rewrite calls_since_refl in Hcalls.
Qed.

End FurtherPipeline.

(** ** The test harness *)

Lemma startswith_spec (s prefix : str) :
  startswith s prefix = true <-> exists rest, s = prefix ++ rest.
Proof.
  revert s. induction prefix as [| p prefix IH]; intros s.
  - split; [intros _; by exists s | intros _; by destruct s].
  - destruct s as [| c s]; cbn [startswith].
    { split; [intros Hs; discriminate Hs | by intros (rest & [=])]. }
    rewrite andb_true_iff, N.eqb_eq, IH. split.
    + intros (-> & rest & ->). by exists rest.
    + intros (rest & [= -> ->]). split; [done | by exists rest].
Qed.

(** After the key, the first [=] of the line is the one that ends the
    key. *)
Lemma split_once_key (value : str) :
  split_once (BACKEND_URL_KEY ++ value) 61%N !! 1%nat = Some value.
Proof. reflexivity. Qed.

(** X20.  [get_backend_url] never raises.  It returns the default URL
    when the file is missing or has no line starting with the key;
    otherwise it returns, stripped of surrounding whitespace, all that
    follows the key on the first such line, later [=] signs included. *)
Theorem get_backend_url_value (frontend_env : option (list str)) :
  get_backend_url frontend_env
  = inr match frontend_env with
        | Some lines =>
            match find (fun line => startswith line BACKEND_URL_KEY) lines with
            | Some line => strip (drop (length BACKEND_URL_KEY) line)
            | None => DEFAULT_BACKEND_URL
            end
        | None => DEFAULT_BACKEND_URL
        end.
Proof.
  destruct frontend_env as [lines |]; [| done].
  unfold get_backend_url.
  induction lines as [| line lines IH]; cbn [backend_url_loop find]; [done |].
  destruct (startswith line BACKEND_URL_KEY) eqn:Hkey; [| exact IH].
  apply startswith_spec in Hkey as [value ->].
  rewrite split_once_key. by rewrite drop_app_length.
Qed.

(** A series of [add_result] calls adds its entries in order and counts
    them. *)
Lemma add_results_counts
    (self : TestResults) (reports : list (str * bool * str)) :
  (add_results self reports).(results)
  = self.(results)
    ++ ((fun '(test_name, ok, message) =>
           {| TestResults.test := test_name;
              TestResults.passed := ok;
              TestResults.message := message |}) <$> reports)
  /\ (add_results self reports).(passed)
     = (self.(passed)
        + Z.of_nat (length (filter (fun '(_, ok, _) => ok = true) reports)))%Z
  /\ (add_results self reports).(failed)
     = (self.(failed)
        + Z.of_nat (length (filter (fun '(_, ok, _) => ok = false) reports)))%Z.
Proof.
  revert self.
  induction reports as [| [[test_name ok] message] reports IH]; intros self.
  - unfold add_results. cbn. rewrite app_nil_r. repeat split; lia.
  - unfold add_results in *. cbn [fold_left].
    destruct (IH (fst (add_result self test_name ok message)))
      as (-> & -> & ->).
    rewrite !filter_cons. unfold add_result.
    destruct ok; cbn [fst results passed failed fmap list_fmap];
      rewrite <- app_assoc;
      repeat first [rewrite decide_True by done
                   | rewrite decide_False by done];
      cbn [length app]; repeat split; try reflexivity; lia.
Qed.

Lemma reports_counts (reports : list (str * bool * str)) :
  let entry_of := fun '(test_name, ok, message) =>
                    {| TestResults.test := test_name;
                       TestResults.passed := ok;
                       TestResults.message := message |} in
  length (filter (fun entry => entry.(TestResults.passed) = true)
                 (entry_of <$> reports))
  = length (filter (fun '(_, ok, _) => ok = true) reports)
  /\ length (filter (fun entry => entry.(TestResults.passed) = false)
                    (entry_of <$> reports))
     = length (filter (fun '(_, ok, _) => ok = false) reports)
  /\ (length (filter (fun '(_, ok, _) => ok = true) reports)
      + length (filter (fun '(_, ok, _) => ok = false) reports))%nat
     = length reports
  /\ (length (filter (fun '(_, ok, _) => ok = false) reports) = 0%nat
      <-> Forall (fun '(_, ok, _) => ok = true) reports).
Proof.
  cbv zeta.
  induction reports as [| [[test_name ok] message] reports
                          (IHtrue & IHfalse & IHsum & IHall)].
  - cbn. repeat split; try done.
  - cbn [fmap list_fmap]. rewrite !filter_cons. cbn [TestResults.passed].
    destruct ok;
      repeat first [rewrite decide_True by done
                   | rewrite decide_False by done];
      cbn [length]; fold (@fmap list _) in *.
    + repeat split; try congruence; try lia.
      * intros Hnone. constructor; [done | by apply IHall].
      * intros Hall. inversion Hall as [| ? ? _ Hrest]; subst.
        by apply IHall.
    + repeat split; try congruence; try lia.
      intros Hall. by inversion Hall.
Qed.

(** X19.  Starting from a fresh [TestResults], after any series of
    [add_result] calls: the entries recorded are the reports in the
    order of the calls, [passed] and [failed] count the entries that
    passed and those that did not, so that they add up to the number of
    entries, and the exit code of [main] is 0 exactly when every report
    passed. *)
Theorem test_results_invariant (reports : list (str * bool * str)) :
  let self := add_results new_TestResults reports in
  self.(results)
  = ((fun '(test_name, ok, message) =>
        {| TestResults.test := test_name;
           TestResults.passed := ok;
           TestResults.message := message |}) <$> reports)
  /\ self.(passed)
     = Z.of_nat (length (filter (fun entry => entry.(TestResults.passed) = true)
                                self.(results)))
  /\ self.(failed)
     = Z.of_nat (length (filter (fun entry => entry.(TestResults.passed) = false)
                                self.(results)))
  /\ (self.(passed) + self.(failed))%Z = Z.of_nat (length self.(results))
  /\ (exit_code self = 0%Z <-> Forall (fun '(_, ok, _) => ok = true) reports).
Proof.
  cbv zeta.
  destruct (add_results_counts new_TestResults reports)
    as (Hresults & Hpassed & Hfailed).
  destruct (reports_counts reports) as (Htrue & Hfalse & Hsum & Hall).
  cbv zeta in Htrue, Hfalse.
  cbn [new_TestResults results passed failed app] in *.
  rewrite Hresults, Hpassed, Hfailed, Htrue, Hfalse, length_fmap.
  unfold exit_code. rewrite Hfailed.
  repeat split; try lia.
  - intros Hzero. apply Hall.
    destruct (Z.eqb_spec
                (0 + Z.of_nat
                       (length (filter (fun '(_, ok, _) => ok = false)
                                       reports))) 0); [lia | done].
  - intros Hok. apply Hall in Hok. by rewrite Hok.
Qed.

(** ** The further properties on the fixture *)

Lemma unsupported_type_rejected_before_read_witness :
  @analyze_document (Fixture.services Fixture.sample_reply)
    (Sample.upload "text/plain" [x68; x69]) initial_world
  = (initial_world, inl type_error).
Proof.
  apply (@unsupported_type_rejected_before_read
           (Fixture.services Fixture.sample_reply)
           (Sample.upload "text/plain" [x68; x69]) initial_world).
  right. exists (lit "text/plain"). split; [reflexivity | by_computation].
Defined.

Lemma extractor_matches_declared_type_witness :
  is_image_call (CallPdfReader (Fixture.pdf_of ["Policy"%string])) = false.
Proof.
  refine (proj1 (@extractor_matches_declared_type
                   (Fixture.services Fixture.sample_reply)
                   Sample.policy_upload initial_world
                   (CallPdfReader (Fixture.pdf_of ["Policy"%string])) _) _).
  - apply (list_elem_of_lookup_2 _ 1%nat). vm_compute. reflexivity.
  - reflexivity.
Defined.

Lemma analyze_document_errors_witness :
  (http_status type_error = Some 400%Z
   /\ (type_error = size_error \/ type_error = type_error
       \/ type_error = pdf_error \/ type_error = image_error
       \/ type_error = empty_text_error)
   /\ initial_world.(drawn) = initial_world.(drawn)
   /\ forall c, c ∈ calls_since initial_world initial_world ->
                is_send_message c = false)
  \/ (http_status type_error = Some 500%Z
      /\ (type_error = internal_error
          \/ exists message, type_error = http 500 message)).
Proof.
  apply (@analyze_document_errors (Fixture.services Fixture.sample_reply)
           (Sample.upload "text/plain" [x68; x69]) initial_world initial_world
           type_error).
  reflexivity.
Defined.

Lemma successful_request_effects_witness :
  size_too_large Sample.policy_upload = false
  /\ type_allowed Sample.policy_upload = true
  /\ Sample.after_request.(drawn) = (initial_world.(drawn) + 3)%nat
  /\ Sample.policy_record.(id)
     = @uuid4 (Fixture.services Fixture.sample_reply) (S initial_world.(drawn))
  /\ Sample.policy_record.(timestamp)
     = @utcnow (Fixture.services Fixture.sample_reply)
         (S (S initial_world.(drawn)))
  /\ exists cs chat user_message,
      calls_since initial_world Sample.after_request
      = CallRead :: cs ++ [CallSendMessage chat user_message]
      /\ (forall c, c ∈ cs -> is_extraction_call c = true)
      /\ chat.(session_id)
         = @uuid4 (Fixture.services Fixture.sample_reply) initial_world.(drawn).
Proof.
  apply (@successful_request_effects (Fixture.services Fixture.sample_reply)
           Sample.policy_upload initial_world Sample.after_request
           Sample.policy_record).
  vm_compute. reflexivity.
Defined.

Lemma null_slots_carry_their_notes_witness :
  (Sample.policy_record.(effective_date) = None ->
   Note.effective_date_missing ∈ Sample.policy_record.(compliance_notes))
  /\ (Sample.policy_record.(policy_amount) = None ->
      Note.policy_amount_missing ∈ Sample.policy_record.(compliance_notes))
  /\ (Sample.policy_record.(legal_description) = None ->
      Note.legal_description_missing ∈ Sample.policy_record.(compliance_notes))
  /\ (Sample.policy_record.(exceptions) = None ->
      Note.standard_coverage ∈ Sample.policy_record.(compliance_notes)
      /\ Note.exceptions_review ∉ Sample.policy_record.(compliance_notes))
  /\ (Sample.policy_record.(underwriter) = None ->
      Note.underwriter_confirmed ∉ Sample.policy_record.(compliance_notes))
  /\ Sample.policy_record.(processing_status) = lit "completed"
  /\ last Sample.policy_record.(compliance_notes) = Some Note.reviewed.
Proof.
  apply (@null_slots_carry_their_notes (Fixture.services Fixture.sample_reply)
           Sample.policy_upload initial_world Sample.after_request
           Sample.policy_record).
  vm_compute. reflexivity.
Defined.

Lemma missing_key_fails_after_extraction_witness :
  @analyze_document (Sample.without_key Fixture.sample_reply)
    Sample.policy_upload initial_world
  = ({| calls := Sample.after_extraction.(calls); drawn := 1 |},
     inl (http 500
            (lit "Failed to analyze document: OpenAI API key not configured"))).
Proof.
  apply (@missing_key_fails_after_extraction
           (Sample.without_key Fixture.sample_reply)
           Sample.policy_upload initial_world Sample.after_extraction
           Sample.policy_text);
    vm_compute; reflexivity.
Defined.

Lemma service_failure_surfaces_as_500_witness :
  @analyze_document (Sample.failing_chat (lit "RateLimitError"))
    Sample.policy_upload initial_world
  = ({| calls := Sample.after_extraction.(calls) ++ [Sample.policy_message];
        drawn := 1 |},
     inl (http 500 (lit "Failed to analyze document: RateLimitError"))).
Proof.
  apply (@service_failure_surfaces_as_500
           (Sample.failing_chat (lit "RateLimitError"))
           Sample.policy_upload initial_world Sample.after_extraction
           Sample.policy_text (lit "sk-test") (EOther (lit "RateLimitError")));
    vm_compute; reflexivity.
Defined.

Lemma non_object_reply_is_internal_error_witness :
  @analyze_document (Fixture.services Sample.array_reply)
    Sample.policy_upload initial_world
  = ({| calls := Sample.after_extraction.(calls) ++ [Sample.policy_message];
        drawn := 1 |},
     inl internal_error).
Proof.
  apply (@non_object_reply_is_internal_error
           (Fixture.services Sample.array_reply)
           Sample.policy_upload initial_world Sample.after_extraction
           Sample.policy_text (lit "sk-test") Sample.array_reply
           (PList [PInt 1; PInt 2]));
    try (vm_compute; reflexivity).
  intros d Heq. discriminate Heq.
Defined.

Lemma unconvertible_field_is_internal_error_witness :
  @analyze_document (Fixture.services Sample.list_field_reply)
    Sample.policy_upload initial_world
  = ({| calls := Sample.after_extraction.(calls) ++ [Sample.policy_message];
        drawn := 3 |},
     inl internal_error).
Proof.
  apply (@unconvertible_field_is_internal_error
           (Fixture.services Sample.list_field_reply)
           Sample.policy_upload initial_world Sample.after_extraction
           Sample.policy_text (lit "sk-test") Sample.list_field_reply
           Field.exceptions Sample.list_fields);
    try (vm_compute; reflexivity).
  by_computation.
Defined.

Lemma wrapped_json_is_recovered_witness :
  @analyze_document_with_openai (Fixture.services Sample.wrapped_reply)
    Sample.policy_text (lit "uuid-0") initial_world
  = (logged Sample.policy_message initial_world,
     inr (PDict {[ Field.underwriter := PStr (lit "First American") ]})).
Proof.
  apply (@wrapped_json_is_recovered (Fixture.services Sample.wrapped_reply)
           Sample.policy_text (lit "uuid-0") (lit "sk-test")
           (lit "Here is the result: ")
           (Fixture.quoted "'underwriter': 'First American'")
           (lit " as requested.") (lit "JSONDecodeError")
           (PDict {[ Field.underwriter := PStr (lit "First American") ]})
           initial_world);
    try (vm_compute; reflexivity); by_computation.
Defined.

Lemma prose_reply_gives_all_null_record_witness :
  @analyze_document (Fixture.services (lit "I could not read the document."))
    Sample.policy_upload initial_world
  = ({| calls := Sample.after_extraction.(calls) ++ [Sample.policy_message];
        drawn := 3 |},
     inr {| id := lit "uuid-1";
            effective_date := None;
            insured_party := None;
            underwriter := None;
            legal_description := None;
            exceptions := None;
            policy_amount := None;
            compliance_notes :=
              [Note.effective_date_missing; Note.policy_amount_missing;
               Note.legal_description_missing; Note.standard_coverage;
               Note.reviewed];
            processing_status := lit "completed";
            timestamp := 2 |}).
Proof.
  apply (@prose_reply_gives_all_null_record
           (Fixture.services (lit "I could not read the document."))
           Sample.policy_upload initial_world Sample.after_extraction
           Sample.policy_text (lit "sk-test")
           (lit "I could not read the document.") (lit "JSONDecodeError"));
    vm_compute; reflexivity.
Defined.

Lemma blank_prefix_reaches_service_witness :
  strip (take 4000 Sample.padded_text) = []
  /\ exists chat,
      last (calls_since initial_world
              (fst (@analyze_document (Fixture.services Fixture.sample_reply)
                      (Sample.upload "application/pdf" Sample.padded_pdf)
                      initial_world)))
      = Some (CallSendMessage chat
                {| text := USER_PROMPT ++ take 4000 Sample.padded_text |}).
Proof.
  apply (@blank_prefix_reaches_service (Fixture.services Fixture.sample_reply)
           (Sample.upload "application/pdf" Sample.padded_pdf) initial_world
           {| calls := [CallRead; CallPdfReader Sample.padded_pdf;
                        CallExtractText];
              drawn := 0 |}
           Sample.padded_text (lit "sk-test"));
    try (vm_compute; reflexivity).
  apply Forall_forall. by_computation.
Defined.

Lemma unreadable_pdf_is_rejected_witness :
  @analyze_document (Fixture.services Fixture.sample_reply)
    (Sample.upload "application/pdf" []) initial_world
  = ({| calls := [CallRead; CallPdfReader []]; drawn := 0 |}, inl pdf_error).
Proof.
  apply (@unreadable_pdf_is_rejected (Fixture.services Fixture.sample_reply)
           (Sample.upload "application/pdf" []) initial_world
           (EOther (lit "PdfReadError")));
    reflexivity.
Defined.

Lemma extract_text_from_image_outcome_witness :
  @extract_text_from_image (Fixture.services Fixture.sample_reply)
    (Sample.grey_image "Policy") initial_world
  = ({| calls := [CallImageOpen (Sample.grey_image "Policy");
                  CallImageConvert (lit "RGB"); CallImageToString];
        drawn := 0 |},
     inr (lit "Policy")).
Proof.
  apply (proj2 (proj2 (proj2
           (@extract_text_from_image_outcome
              (Fixture.services Fixture.sample_reply)
              (Sample.grey_image "Policy") initial_world)))
           (lit "L", lit "Policy") (lit "RGB", lit "Policy"));
    [reflexivity | | reflexivity].
  intros Hmode. vm_compute in Hmode. discriminate Hmode.
Defined.

Lemma pdf_extraction_stops_at_first_failing_page_witness :
  @extract_text_from_pdf (Sample.fragile_pages Fixture.sample_reply)
    [x61; x62; x21; x63] initial_world
  = ({| calls := [CallPdfReader [x61; x62; x21; x63];
                  CallExtractText; CallExtractText; CallExtractText];
        drawn := 0 |},
     inl pdf_error).
Proof.
  apply (@pdf_extraction_stops_at_first_failing_page
           (Sample.fragile_pages Fixture.sample_reply)
           [x61; x62; x21; x63] initial_world [x61; x62] [[97%N]; [98%N]]
           x21 [x63] (EOther (lit "PdfReadError")));
    [reflexivity | repeat constructor | reflexivity].
Defined.
